(** * aar-transform.js: the Android Archive transform hook

    A shallow embedding of [android/cli/hooks/aar-transform.js]: the
    [SimpleFileCache] class, the five steps of the per-archive waterfall
    ([hashFile], [skipLibraryIfDuplicate], [doTransform],
    [ensureUniquePackageName], [updateBuilderWithTransformResult]) and the
    driver [transformAndroidLibraries], followed by the properties of the
    build-artifact cache that the specification states about them.

    JavaScript objects used as dictionaries are finite maps ([gmap]) keyed by
    strings; callbacks are results; a thrown exception that no callback
    receives is an outcome of its own. *)

From Stdlib Require Import String Ascii List ZArith Lia.
From stdpp Require Import gmap strings list fin_maps.

Local Open Scope string_scope.

(** ** Constants of the hook *)

Definition HOOK_DATA_VERSION : string := "1".

Inductive BuildVariant := BUILD_VARIANT_MODULE | BUILD_VARIANT_APP.

(** ** Data model *)

Module ModuleInfo.
Record t := Build { id : string; modulePath : string }.
End ModuleInfo.

(** Where an archive comes from.  The scanners build two shapes of task
    object: [{aarPathAndFilename, originType: 'Module', moduleInfo}] and
    [{aarPathAndFilename, originType: 'Project'}]; the constant
    [LIBRARY_ORIGIN_CORE] is declared and never attached to a task. *)
Inductive LibraryOrigin :=
| LIBRARY_ORIGIN_CORE
| LIBRARY_ORIGIN_MODULE (moduleInfo : ModuleInfo.t)
| LIBRARY_ORIGIN_PORJECT.

Record TransformTask := {
  aarPathAndFilename : string;
  originType : LibraryOrigin
}.

(** The object [doTransform] builds from a transformer result. *)
Record LibraryInfo := {
  packageName : string;
  explodedPath : string;
  jars : list string;
  nativeLibraries : list string;
  sha256 : string;
  task : TransformTask
}.

(** Reading a property of a [LibraryInfo] object as a string: the object has
    the six properties above and no other, so a name such as
    [aarPathAndFilename] (which lives under [task]) reads as [undefined],
    here [None]. *)
Definition LibraryInfo_stringProperty (lib : LibraryInfo) (name : string)
  : option string :=
  if String.eqb name "packageName" then Some (packageName lib)
  else if String.eqb name "explodedPath" then Some (explodedPath lib)
  else if String.eqb name "sha256" then Some (sha256 lib)
  else None.

(** What the cache file holds under a key: the version tag (a string) or a
    transform result. *)
Inductive CacheValue :=
| CVersion (version : string)
| CRecord (libraryInfo : LibraryInfo).

#[global] Instance ModuleInfo_eq_dec : EqDecision ModuleInfo.t.
Proof. solve_decision. Defined.
#[global] Instance LibraryOrigin_eq_dec : EqDecision LibraryOrigin.
Proof. solve_decision. Defined.
#[global] Instance TransformTask_eq_dec : EqDecision TransformTask.
Proof. solve_decision. Defined.
#[global] Instance LibraryInfo_eq_dec : EqDecision LibraryInfo.
Proof. solve_decision. Defined.
#[global] Instance CacheValue_eq_dec : EqDecision CacheValue.
Proof. solve_decision. Defined.

(** Errors travelling through callbacks or thrown. *)
Inductive JsError :=
| Error (message : string)
| SkipLibraryError
| TypeError (message : string)
| TransformerError (message : string)
| IoFailure (message : string).

Definition instanceof_SkipLibraryError (e : JsError) : bool :=
  match e with SkipLibraryError => true | _ => false end.

(** Options handed to [AarTransformer.transform]. *)
Record TransformOptions := {
  opt_aarPathAndFilename : string;
  opt_outputPath : string;
  opt_assetsDestinationPath : option string;
  opt_sharedLibraryDestinationPath : option string
}.

Record TransformResult := {
  res_packageName : string;
  res_explodedPath : string;
  res_jars : list string;
  res_nativeLibraries : list string
}.

(** Messages given to [logger.trace]. *)
Inductive LogEntry :=
| TraceNoAarFiles
| TraceCacheOutOfDate
| TracePreCompileHook
| TraceSkippingDuplicate (aar duplicateOf : string)
| TraceNotChanged (aar : string).

(** ** The regular expressions of the scanners *)

(** [/\.aar$/.test(file)] *)
Fixpoint endsWith (suffix s : string) : bool :=
  String.eqb s suffix
  || match s with
     | EmptyString => false
     | String _ s' => endsWith suffix s'
     end.

(** [/\.aar/.test(file)] *)
Fixpoint includes (sub s : string) : bool :=
  String.prefix sub s
  || match s with
     | EmptyString => false
     | String _ s' => includes sub s'
     end.

(** ** Hex digests *)

Definition hex_alphabet : list ascii :=
  ["0"; "1"; "2"; "3"; "4"; "5"; "6"; "7";
   "8"; "9"; "a"; "b"; "c"; "d"; "e"; "f"]%char.

Definition hex_digit (n : N) : ascii := nth (N.to_nat n) hex_alphabet "0"%char.

Fixpoint hex_encode (bs : list Byte.byte) : string :=
  match bs with
  | [] => EmptyString
  | b :: bs' =>
      String (hex_digit (Byte.to_N b / 16))
        (String (hex_digit (Byte.to_N b mod 16)) (hex_encode bs'))
  end.

(** ** The file holding the cache

    [files] are the regular files the hook itself reads and writes (the
    cache file); directories are not tracked here, the exploded archives
    live in the transformer's part of the disk (see [Platform]). *)
Record FileSystem := {
  files : gmap string string
}.

Inductive FsOp :=
| OpUnlink (path : string)
| OpMkdirRecursive (path : string)
| OpWriteFile (path : string) (data : string).

Definition is_write (op : FsOp) : bool :=
  match op with OpWriteFile _ _ => true | _ => false end.

(** ** The platform: Node's runtime and the external collaborators *)

(** What a read stream delivers to its listeners: a ['readable'] event at
    which [read()] returns a chunk, a ['readable'] event at which [read()]
    returns [null] (end of the stream), or an ['error'] event. *)
Inductive StreamEvent :=
| EvReadable (data : list Byte.byte)
| EvReadableNull
| EvError (message : string).

Class Platform := {
  (** the part of the disk the transformer writes: the exploded directories *)
  Disk : Type;
  Disk_existsSync : Disk -> string -> bool;
  readdirSync : Disk -> string -> list string;
  (** the events a read stream on an archive delivers; the archives are
      inputs, nothing in a run writes them *)
  createReadStream : string -> list StreamEvent;
  (** [AarTransformer.transform]: an error or a result, and its effect on the disk *)
  AarTransformer_transform :
    Disk -> TransformOptions -> (string + TransformResult) * Disk;
  (** [crypto.createHash('sha1')] over the bytes fed to it *)
  sha1 : list Byte.byte -> list Byte.byte;
  JSON_parse : string -> option (gmap string CacheValue);
  JSON_stringify : gmap string CacheValue -> string;
  path_join : string -> string -> string;
  path_dirname : string -> string;
  (** how many bytes a write of [data] to [path] stores before it fails, if it fails *)
  write_fault : string -> string -> option nat
}.

(** ** [fs] on the hook's own files *)

Definition fs_existsSync (fs : FileSystem) (path : string) : bool :=
  bool_decide (is_Some (files fs !! path)).

(** [None] stands for the exception [readFileSync] throws on a missing file. *)
Definition fs_readFileSync (fs : FileSystem) (path : string) : option string :=
  files fs !! path.

Definition fs_unlinkSync (fs : FileSystem) (path : string) : FileSystem :=
  {| files := delete path (files fs) |}.

(** Directories are not tracked: creating them leaves [files] as it is. *)
Definition wrench_mkdirSyncRecursive (fs : FileSystem) (path : string)
  : FileSystem := fs.

(** [fs.writeFileSync] opens the target itself for writing and stores the
    bytes in place; when the write fails after [k] bytes the target holds
    those [k] bytes and the call throws. *)
Definition fs_writeFileSync `{Platform} (fs : FileSystem) (path data : string)
  : option JsError * FileSystem :=
  match write_fault path data with
  | None => (None, {| files := <[path := data]> (files fs) |})
  | Some k =>
      (Some (IoFailure "write failed"),
       {| files := <[path := String.substring 0 k data]> (files fs) |})
  end.

(** ** class SimpleFileCache *)

Module SimpleFileCache.

Record t := Build {
  cachePathAndFilename : string;
  data : gmap string CacheValue
}.

Section Methods.
Context `{Platform}.

(** [constructor(cachePathAndFilename)]: the loaded cache, the file
    system after it and the operations performed on it. *)
Definition constructor (fs : FileSystem) (path : string)
  : t * FileSystem * list FsOp :=
  if fs_existsSync fs path then
    match fs_readFileSync fs path ≫= JSON_parse with
    | Some d => (Build path d, fs, [])
    | None => (Build path ∅, fs_unlinkSync fs path, [OpUnlink path])
    end
  else (Build path ∅, fs, []).

Definition has (c : t) (key : string) : bool :=
  bool_decide (is_Some (data c !! key)).

(** [None] is JavaScript's [null]. *)
Definition get (c : t) (key : string) : option CacheValue :=
  if has c key then data c !! key else None.

Definition set (c : t) (key : string) (v : CacheValue) : t :=
  Build (cachePathAndFilename c) (<[key := v]> (data c)).

Definition keys (c : t) : list string := (map_to_list (data c)).*1.

Definition remove (c : t) (key : string) : t :=
  if has c key then Build (cachePathAndFilename c) (delete key (data c))
  else c.

Definition flush (c : t) : t := Build (cachePathAndFilename c) ∅.

(** [fs.exists] is the asynchronous test: called without a callback (in
    the Node releases of the hook's time) it returns [undefined], so the
    directory is always (re)created. *)
Definition persist (c : t) (fs : FileSystem)
  : option JsError * FileSystem * list FsOp :=
  let dataToWrite := JSON_stringify (data c) in
  let dir := path_dirname (cachePathAndFilename c) in
  let fs1 := wrench_mkdirSyncRecursive fs dir in
  let '(err, fs2) := fs_writeFileSync fs1 (cachePathAndFilename c) dataToWrite in
  (err, fs2,
   [OpMkdirRecursive dir; OpWriteFile (cachePathAndFilename c) dataToWrite]).
End Methods.

End SimpleFileCache.

(** ** The builder and the state of one run *)

(** The fields of the builder instances the hook reads or writes; an
    [AndroidBuilder] has [projectDir] and [nativeLibModules], an
    [AndroidModuleBuilder] has [projLibDir]. *)
Record Builder := {
  projectDir : string;
  projLibDir : string;
  nativeLibModules : list ModuleInfo.t;
  buildIntermediatesDir : string;
  buildBinAssetsDir : string;
  localJniGenDir : string;
  classPaths : gmap string Z;
  androidLibraries : list LibraryInfo
}.

Section Hook.
Context `{Platform}.

Record State := {
  cache : SimpleFileCache.t;
  libraryHashMap : gmap string LibraryInfo;
  packageNameMap : gmap string LibraryInfo;
  builder : Builder;
  disk : Disk;
  logger : list LogEntry;
  (** the calls made to [AarTransformer.transform], oldest first *)
  transformCalls : list TransformOptions
}.

(** How a step of the waterfall ends. *)
Inductive Step (A : Type) :=
| Done (a : A) (st : State)            (** [done(null, a)] *)
| Failed (err : JsError) (st : State)  (** [done(err)] *)
| Thrown (exn : JsError) (st : State)  (** an exception leaves the step, [done] is not called *)
| NeverCalled (st : State).            (** the step ends without calling [done] *)
Global Arguments Done {A} a st.
Global Arguments Failed {A} err st.
Global Arguments Thrown {A} exn st.
Global Arguments NeverCalled {A} st.

(** [async.waterfall]: the next function runs on the value given to [done];
    an error given to [done] skips the remaining functions. *)
Definition andThen {A B} (r : Step A) (k : A -> State -> Step B) : Step B :=
  match r with
  | Done a st => k a st
  | Failed err st => Failed err st
  | Thrown exn st => Thrown exn st
  | NeverCalled st => NeverCalled st
  end.

Definition trace (msg : LogEntry) (st : State) : State :=
  {| cache := cache st; libraryHashMap := libraryHashMap st;
     packageNameMap := packageNameMap st; builder := builder st;
     disk := disk st; logger := logger st ++ [msg];
     transformCalls := transformCalls st |}.

Definition aarOutputPath (b : Builder) : string :=
  path_join (buildIntermediatesDir b) "exploded-aar".

(** *** hashFile

    Only a ['readable'] listener is attached.  [hash] is what has been
    fed to [hash.update] so far. *)
Fixpoint hashFile_listen (hash : list Byte.byte) (events : list StreamEvent)
    (st : State) : Step string :=
  match events with
  | [] => NeverCalled st
  | EvReadable data :: events' => hashFile_listen (hash ++ data) events' st
  | EvReadableNull :: _ => Done (hex_encode (sha1 hash)) st
  | EvError message :: _ => Thrown (IoFailure message) st
  end.

Definition hashFile (transformTaskInfo : TransformTask) (st : State)
  : Step string :=
  hashFile_listen [] (createReadStream (aarPathAndFilename transformTaskInfo)) st.

(** *** skipLibraryIfDuplicate

    The trace message reads [libraryHashMap[hash].aarPathAndFilename.cyan];
    the argument is evaluated before [done(new SkipLibraryError())]. *)
Definition skipLibraryIfDuplicate (transformTaskInfo : TransformTask)
    (hash : string) (st : State) : Step string :=
  match libraryHashMap st !! hash with
  | None => Done hash st
  | Some lib =>
      match LibraryInfo_stringProperty lib "aarPathAndFilename" with
      | Some duplicateOf =>
          Failed SkipLibraryError
            (trace (TraceSkippingDuplicate
                      (aarPathAndFilename transformTaskInfo) duplicateOf) st)
      | None => Thrown (TypeError "Cannot read property 'cyan' of undefined") st
      end
  end.

(** *** doTransform *)
Definition transformOptions_for (buildVariant : BuildVariant)
    (transformTaskInfo : TransformTask) (b : Builder) : TransformOptions :=
  {| opt_aarPathAndFilename := aarPathAndFilename transformTaskInfo;
     opt_outputPath := aarOutputPath b;
     opt_assetsDestinationPath :=
       match buildVariant with
       | BUILD_VARIANT_APP => Some (buildBinAssetsDir b)
       | BUILD_VARIANT_MODULE => None
       end;
     opt_sharedLibraryDestinationPath :=
       match buildVariant with
       | BUILD_VARIANT_APP => None
       | BUILD_VARIANT_MODULE => Some (localJniGenDir b)
       end |}.

Definition runTransformer (buildVariant : BuildVariant)
    (transformTaskInfo : TransformTask) (hash : string) (st : State)
  : Step LibraryInfo :=
  let transformOptions := transformOptions_for buildVariant transformTaskInfo (builder st) in
  let '(outcome, disk') := AarTransformer_transform (disk st) transformOptions in
  let st' :=
    {| cache := cache st; libraryHashMap := libraryHashMap st;
       packageNameMap := packageNameMap st; builder := builder st;
       disk := disk'; logger := logger st;
       transformCalls := transformCalls st ++ [transformOptions] |} in
  match outcome with
  | inl err => Failed (TransformerError err) st'
  | inr result =>
      Done {| packageName := res_packageName result;
              explodedPath := res_explodedPath result;
              jars := res_jars result;
              nativeLibraries := res_nativeLibraries result;
              sha256 := hash;
              task := transformTaskInfo |} st'
  end.

Definition doTransform (buildVariant : BuildVariant)
    (transformTaskInfo : TransformTask) (hash : string) (st : State)
  : Step LibraryInfo :=
  if SimpleFileCache.has (cache st) hash then
    match SimpleFileCache.get (cache st) hash with
    | Some (CRecord cacheData) =>
        if String.eqb (aarPathAndFilename (task cacheData))
                      (aarPathAndFilename transformTaskInfo)
           && Disk_existsSync (disk st) (explodedPath cacheData)
        then Done cacheData
               (trace (TraceNotChanged (aarPathAndFilename transformTaskInfo)) st)
        else runTransformer buildVariant transformTaskInfo hash st
    | _ =>
        (* a string or null has no [task]: reading [task.aarPathAndFilename] throws *)
        Thrown (TypeError "Cannot read property 'aarPathAndFilename' of undefined") st
    end
  else runTransformer buildVariant transformTaskInfo hash st.

(** *** ensureUniquePackageName *)
Definition newline : string := String (ascii_of_nat 10) EmptyString.
Definition dquote : string := String (ascii_of_nat 34) EmptyString.

Definition is_MODULE (o : LibraryOrigin) : bool :=
  match o with LIBRARY_ORIGIN_MODULE _ => true | _ => false end.
Definition is_PORJECT (o : LibraryOrigin) : bool :=
  match o with LIBRARY_ORIGIN_PORJECT => true | _ => false end.

Definition formatDupeInfo (dupeLibraryInfo : LibraryInfo) : string :=
  let infoString :=
    aarPathAndFilename (task dupeLibraryInfo) +:+ " (hash: " +:+ sha256 dupeLibraryInfo in
  let infoString :=
    match originType (task dupeLibraryInfo) with
    | LIBRARY_ORIGIN_MODULE moduleInfo =>
        infoString +:+ ", origin: Module " +:+ ModuleInfo.id moduleInfo
    | LIBRARY_ORIGIN_PORJECT => infoString +:+ ", origin: Project"
    | LIBRARY_ORIGIN_CORE => infoString
    end in
  infoString +:+ ")".

Definition guidance_modules : string :=
  "Please either select a version of these modules where the conflicting .aar file is the same or you can try removing the .aar file from one module's " +:+ dquote +:+ "lib" +:+ dquote +:+ " folder.".
Definition guidance_project : string :=
  "Please either remove the duplicate .aar file or change the package name of one Android Library if possible.".
Definition guidance_mixed : string :=
  "Please make sure the .aar files in your project and the module match or try removing either the one in your project or in the module.".

Definition conflictGuidance (existingLibrary libraryInfo : LibraryInfo) : string :=
  let oe := originType (task existingLibrary) in
  let ol := originType (task libraryInfo) in
  if is_MODULE oe && is_MODULE ol then guidance_modules
  else if is_PORJECT oe && is_PORJECT ol then guidance_project
  else if is_PORJECT oe || is_PORJECT ol then guidance_mixed
  else "".

Definition conflictMessage (existingLibrary libraryInfo : LibraryInfo) : string :=
  let errorMessage :=
    "Conflicting Android Libraries with package name " +:+ dquote
      +:+ packageName libraryInfo +:+ dquote +:+ " detected:" +:+ newline in
  let errorMessage :=
    errorMessage +:+ ("  " +:+ formatDupeInfo existingLibrary +:+ newline) in
  let errorMessage :=
    errorMessage +:+ ("  " +:+ formatDupeInfo libraryInfo +:+ newline +:+ newline) in
  errorMessage +:+ conflictGuidance existingLibrary libraryInfo.

Definition ensureUniquePackageName (libraryInfo : LibraryInfo) (st : State)
  : Step LibraryInfo :=
  match packageNameMap st !! packageName libraryInfo with
  | Some existingLibrary =>
      Failed (Error (conflictMessage existingLibrary libraryInfo)) st
  | None => Done libraryInfo st
  end.

(** *** updateBuilderWithTransformResult *)
Definition addClassPaths (jarFiles : list string) (cp : gmap string Z)
  : gmap string Z :=
  foldl (fun cp jarPathAndFilename => <[jarPathAndFilename := 1%Z]> cp) cp jarFiles.

Definition updateBuilderWithTransformResult (buildVariant : BuildVariant)
    (libraryInfo : LibraryInfo) (st : State) : Step unit :=
  let b := builder st in
  let classPaths' :=
    match buildVariant with
    | BUILD_VARIANT_MODULE => addClassPaths (jars libraryInfo) (classPaths b)
    | BUILD_VARIANT_APP => classPaths b
    end in
  Done tt
    {| cache := SimpleFileCache.set (cache st) (sha256 libraryInfo) (CRecord libraryInfo);
       libraryHashMap := <[sha256 libraryInfo := libraryInfo]> (libraryHashMap st);
       packageNameMap := <[packageName libraryInfo := libraryInfo]> (packageNameMap st);
       builder :=
         {| projectDir := projectDir b;
            projLibDir := projLibDir b;
            nativeLibModules := nativeLibModules b;
            buildIntermediatesDir := buildIntermediatesDir b;
            buildBinAssetsDir := buildBinAssetsDir b;
            localJniGenDir := localJniGenDir b;
            classPaths := classPaths';
            androidLibraries := androidLibraries b ++ [libraryInfo] |};
       disk := disk st; logger := logger st;
       transformCalls := transformCalls st |}.

(** *** The waterfall of one task and its final callback *)
Definition waterfall (buildVariant : BuildVariant)
    (transformTaskInfo : TransformTask) (st : State) : Step unit :=
  andThen
    (andThen
       (andThen
          (andThen (hashFile transformTaskInfo st)
                   (skipLibraryIfDuplicate transformTaskInfo))
          (doTransform buildVariant transformTaskInfo))
       ensureUniquePackageName)
    (updateBuilderWithTransformResult buildVariant).

(** [if (!err || err instanceof SkipLibraryError) return next(); next(err);] *)
Definition processTask (buildVariant : BuildVariant)
    (transformTaskInfo : TransformTask) (st : State) : Step unit :=
  match waterfall buildVariant transformTaskInfo st with
  | Failed err st' =>
      if instanceof_SkipLibraryError err then Done tt st' else Failed err st'
  | r => r
  end.

(** [async.eachSeries]: one task after the other, stopping at the first error. *)
Fixpoint eachSeries (buildVariant : BuildVariant)
    (transformTasks : list TransformTask) (st : State) : Step unit :=
  match transformTasks with
  | [] => Done tt st
  | transformTaskInfo :: rest =>
      andThen (processTask buildVariant transformTaskInfo st)
              (fun _ => eachSeries buildVariant rest)
  end.

(** *** transformAndroidLibraries *)

(** [Array.prototype.indexOf], counting from [i]. *)
Fixpoint indexOf_from (l : list string) (x : string) (i : Z) : Z :=
  match l with
  | [] => (-1)%Z
  | y :: l' => if String.eqb y x then i else indexOf_from l' x (i + 1)%Z
  end.
Definition indexOf (l : list string) (x : string) : Z := indexOf_from l x 0.

Definition unusedKeys (c : SimpleFileCache.t) (hashes : list string)
  : list string :=
  List.filter
    (fun key =>
       if String.eqb key "data-version" then false
       else (indexOf hashes key =? -1)%Z)
    (SimpleFileCache.keys c).

Definition cleanUp (c : SimpleFileCache.t) (libraryHashMap : gmap string LibraryInfo)
  : SimpleFileCache.t :=
  let hashes := (map_to_list libraryHashMap).*1 in
  foldl SimpleFileCache.remove c (unusedKeys c hashes).

(** [cache.get('data-version') !== HOOK_DATA_VERSION] *)
Definition version_differs (v : option CacheValue) : bool :=
  match v with
  | Some (CVersion s) => negb (String.eqb s HOOK_DATA_VERSION)
  | _ => true
  end.

(** The cache object after lines 145-152 and whether it was flushed. *)
Definition openCache (loaded : SimpleFileCache.t) : SimpleFileCache.t * bool :=
  let '(c, flushed) :=
    if SimpleFileCache.has loaded "data-version" then
      if version_differs (SimpleFileCache.get loaded "data-version")
      then (SimpleFileCache.flush loaded, true)
      else (loaded, false)
    else (loaded, false) in
  (SimpleFileCache.set c "data-version" (CVersion HOOK_DATA_VERSION), flushed).

(** What the caller of the hook observes. *)
Inductive Callback :=
| Called (err : option JsError)   (** [callback()] or [callback(err)] *)
| Uncaught (exn : JsError)        (** an exception no callback received *)
| NotCalled.                      (** the run ended without calling back *)

Record RunResult := {
  called : Callback;
  fs_after : FileSystem;
  fs_ops : list FsOp;
  log_after : list LogEntry;
  (** the registries, builder and in-memory cache; [None] on the fast path *)
  run_state : option State
}.

Definition cacheFileOf (b : Builder) : string :=
  path_join (aarOutputPath b) "state.json".

Definition initialState (c : SimpleFileCache.t) (b : Builder) (d : Disk)
    (log : list LogEntry) : State :=
  {| cache := c; libraryHashMap := ∅; packageNameMap := ∅; builder := b;
     disk := d; logger := log; transformCalls := [] |}.

Definition with_cache (c : SimpleFileCache.t) (st : State) : State :=
  {| cache := c; libraryHashMap := libraryHashMap st;
     packageNameMap := packageNameMap st; builder := builder st;
     disk := disk st; logger := logger st;
     transformCalls := transformCalls st |}.

(** Lines 143-157: the cache is loaded and versioned, the registries start empty. *)
Definition startRun (b : Builder) (log : list LogEntry) (fs : FileSystem)
    (d : Disk) : State * FileSystem * list FsOp :=
  let '(loaded, fs1, ops1) := SimpleFileCache.constructor fs (cacheFileOf b) in
  let '(c, flushed) := openCache loaded in
  let log1 := if flushed then (log ++ [TraceCacheOutOfDate])%list else log in
  (initialState c b d (log1 ++ [TracePreCompileHook])%list, fs1, ops1).

(** Lines 322-343: the final callback of [async.eachSeries]. *)
Definition finishRun (r : Step unit) (fs1 : FileSystem) (ops1 : list FsOp)
  : RunResult :=
  match r with
  | Failed err st =>
      {| called := Called (Some err); fs_after := fs1; fs_ops := ops1;
         log_after := logger st; run_state := Some st |}
  | Thrown exn st =>
      {| called := Uncaught exn; fs_after := fs1; fs_ops := ops1;
         log_after := logger st; run_state := Some st |}
  | NeverCalled st =>
      {| called := NotCalled; fs_after := fs1; fs_ops := ops1;
         log_after := logger st; run_state := Some st |}
  | Done _ st =>
      let st' := with_cache (cleanUp (cache st) (libraryHashMap st)) st in
      let '(err, fs2, ops2) := SimpleFileCache.persist (cache st') fs1 in
      {| called := match err with
                   | Some exn => Uncaught exn
                   | None => Called None
                   end;
         fs_after := fs2; fs_ops := (ops1 ++ ops2)%list;
         log_after := logger st'; run_state := Some st' |}
  end.

Definition transformAndroidLibraries (transformTasks : list TransformTask)
    (b : Builder) (buildVariant : BuildVariant) (log : list LogEntry)
    (fs : FileSystem) (d : Disk) : RunResult :=
  match transformTasks with
  | [] =>
      {| called := Called None; fs_after := fs; fs_ops := [];
         log_after := (log ++ [TraceNoAarFiles])%list; run_state := None |}
  | _ :: _ =>
      let '(st0, fs1, ops1) := startRun b log fs d in
      finishRun (eachSeries buildVariant transformTasks st0) fs1 ops1
  end.

(** *** The scanners and the hook's entry points *)

Definition moduleLibraries (d : Disk) (moduleInfo : ModuleInfo.t)
  : list TransformTask :=
  let moduleLibrariesPath := path_join (ModuleInfo.modulePath moduleInfo) "lib" in
  if Disk_existsSync d moduleLibrariesPath then
    (fun file =>
       {| aarPathAndFilename := path_join moduleLibrariesPath file;
          originType := LIBRARY_ORIGIN_MODULE moduleInfo |})
      <$> List.filter (endsWith ".aar") (readdirSync d moduleLibrariesPath)
  else [].

Definition projectAndroidLibraries (b : Builder) (d : Disk) : list TransformTask :=
  let fromModules := flat_map (moduleLibraries d) (nativeLibModules b) in
  let androidPlatformPath :=
    path_join (path_join (projectDir b) "platform") "android" in
  let fromProject :=
    if Disk_existsSync d androidPlatformPath then
      (fun file =>
         {| aarPathAndFilename := path_join androidPlatformPath file;
            originType := LIBRARY_ORIGIN_PORJECT |})
        <$> List.filter (endsWith ".aar") (readdirSync d androidPlatformPath)
    else [] in
  (fromModules ++ fromProject)%list.

Definition scanProjectAndStartTransform (b : Builder) (log : list LogEntry)
    (fs : FileSystem) (d : Disk) : RunResult :=
  transformAndroidLibraries (projectAndroidLibraries b d) b BUILD_VARIANT_APP log fs d.

(** [fs.readdirSync] throws on a directory that does not exist; the project
    scanner asks [fs.existsSync] first, the module scanner does not. *)
Definition fs_readdirSync (d : Disk) (path : string) : option (list string) :=
  if Disk_existsSync d path then Some (readdirSync d path) else None.

Definition moduleAndroidLibraries (b : Builder) (d : Disk)
  : option (list TransformTask) :=
  (fun files =>
     (fun file =>
        {| aarPathAndFilename := path_join (projLibDir b) file;
           originType := LIBRARY_ORIGIN_PORJECT |})
       <$> List.filter (includes ".aar") files)
    <$> fs_readdirSync d (projLibDir b).

Definition scanModuleAndStartTransform (b : Builder) (log : list LogEntry)
    (fs : FileSystem) (d : Disk) : RunResult :=
  match moduleAndroidLibraries b d with
  | Some moduleLibs =>
      transformAndroidLibraries moduleLibs b BUILD_VARIANT_MODULE log fs d
  | None =>
      {| called := Uncaught (IoFailure "ENOENT"); fs_after := fs; fs_ops := [];
         log_after := log; run_state := None |}
  end.

(** The two events [exports.init] listens to. *)
Inductive CliEvent := build_pre_compile | build_module_pre_compile.

Definition init (event : CliEvent) (b : Builder) (log : list LogEntry)
    (fs : FileSystem) (d : Disk) : RunResult :=
  match event with
  | build_pre_compile => scanProjectAndStartTransform b log fs d
  | build_module_pre_compile => scanModuleAndStartTransform b log fs d
  end.

(** ** Notions used to state the properties *)

(** The state in which a step ended. *)
Definition state_of {A} (r : Step A) : State :=
  match r with
  | Done _ st | Failed _ st | Thrown _ st | NeverCalled st => st
  end.

(** The bytes a stream delivers up to the ['readable'] event at which
    [read()] returns [null]; [None] when it errors or never gets there. *)
Fixpoint bytesRead (events : list StreamEvent) : option (list Byte.byte) :=
  match events with
  | [] => None
  | EvReadable data :: events' => (fun rest => data ++ rest)%list <$> bytesRead events'
  | EvReadableNull :: _ => Some []
  | EvError _ :: _ => None
  end.

(** The digest of a task's archive, when the archive can be read to its end. *)
Definition digestOf (transformTaskInfo : TransformTask) : option string :=
  (fun bytes => hex_encode (sha1 bytes))
    <$> bytesRead (createReadStream (aarPathAndFilename transformTaskInfo)).

(** Records are stored under their own digest: what every cache written
    by [updateBuilderWithTransformResult] satisfies. *)
Definition wellKeyed (d : gmap string CacheValue) : Prop :=
  forall k r, d !! k = Some (CRecord r) -> sha256 r = k.

Definition is_infix (s msg : string) : Prop :=
  exists pre post, msg = pre +:+ s +:+ post.

Definition ends_with (s msg : string) : Prop :=
  exists pre, msg = pre +:+ s.

(** The digest-keyed registry, the name-keyed registry, the builder's list
    and the cache agree on the records in [accepted]. *)
Definition registered (st : State) (r : LibraryInfo) : Prop :=
  libraryHashMap st !! sha256 r = Some r
  /\ packageNameMap st !! packageName r = Some r
  /\ SimpleFileCache.data (cache st) !! sha256 r = Some (CRecord r).


(** The condition under which a cached record is reused. *)
Definition cacheHit (t : TransformTask) (h : string) (st : State)
    (r : LibraryInfo) : Prop :=
  SimpleFileCache.data (cache st) !! h = Some (CRecord r)
  /\ aarPathAndFilename (task r) = aarPathAndFilename t
  /\ Disk_existsSync (disk st) (explodedPath r) = true.

(** The cache, the registries and the builder are as they were. *)
Definition sameRegistries (st st' : State) : Prop :=
  cache st' = cache st /\ libraryHashMap st' = libraryHashMap st
  /\ packageNameMap st' = packageNameMap st /\ builder st' = builder st.

(** A conflict message names a library: its archive's path, its digest and,
    next to them, its origin (the module's id, or the project). *)
Definition namesLibrary (msg : string) (lib : LibraryInfo) : Prop :=
  is_infix (aarPathAndFilename (task lib)) msg
  /\ is_infix (sha256 lib) msg
  /\ (forall moduleInfo,
        originType (task lib) = LIBRARY_ORIGIN_MODULE moduleInfo ->
        is_infix (aarPathAndFilename (task lib) +:+ " (hash: " +:+ sha256 lib
                    +:+ ", origin: Module " +:+ ModuleInfo.id moduleInfo +:+ ")") msg)
  /\ (originType (task lib) = LIBRARY_ORIGIN_PORJECT ->
        is_infix (aarPathAndFilename (task lib) +:+ " (hash: " +:+ sha256 lib
                    +:+ ", origin: Project)") msg).

(** The guidance a conflict message ends with, by the two origins. *)
Definition guidanceByOrigins (msg : string) (oe ol : LibraryOrigin) : Prop :=
  (is_MODULE oe = true -> is_MODULE ol = true -> ends_with guidance_modules msg)
  /\ (is_PORJECT oe = true -> is_PORJECT ol = true -> ends_with guidance_project msg)
  /\ (is_MODULE oe = true -> is_PORJECT ol = true -> ends_with guidance_mixed msg)
  /\ (is_PORJECT oe = true -> is_MODULE ol = true -> ends_with guidance_mixed msg).

(** Every key of the cache is the version key or a digest accepted in this run. *)
Definition onlyThisRun (st : State) : Prop :=
  forall k, is_Some (SimpleFileCache.data (cache st) !! k) ->
            k = "data-version" \/ is_Some (libraryHashMap st !! k).

(** [r] is a record of the archive of task [t]: it is stored under the
    archive's digest and names the archive's path. *)
Definition recordFor (t : TransformTask) (r : LibraryInfo) : Prop :=
  digestOf t = Some (sha256 r)
  /\ aarPathAndFilename (task r) = aarPathAndFilename t.

(** The errors a task can hand to its callback: the transformer's, or a
    package name conflict. *)
Definition reportedError (e : JsError) : Prop :=
  (exists message, e = TransformerError message)
  \/ (exists existingLibrary libraryInfo,
        e = Error (conflictMessage existingLibrary libraryInfo)).

(** The transformer calls a list of tasks gives rise to when each is transformed. *)
Definition callsFor (buildVariant : BuildVariant) (b : Builder)
    (transformTasks : list TransformTask) : list TransformOptions :=
  (fun t => transformOptions_for buildVariant t b) <$> transformTasks.

End Hook.

(** ** A small concrete platform

    Three archives, two of them with the same bytes; the digest of an
    archive is the hex form of its bytes; the transformer names the package
    after the archive's bytes and fails on nothing. *)
Module Sample.

Definition bytes_of (s : string) : list Byte.byte :=
  byte_of_ascii <$> list_ascii_of_string s.

Definition archives : list (string * list Byte.byte) :=
  [("/mod/lib/a.aar", bytes_of "A");
   ("/proj/a-copy.aar", bytes_of "A");
   ("/proj/b.aar", bytes_of "B");
   ("/proj/c.aar", bytes_of "C")].

(** The package each archive's manifest declares; [b.aar] and [c.aar] clash. *)
Definition manifests : list (string * string) :=
  [("/mod/lib/a.aar", "com.a");
   ("/proj/a-copy.aar", "com.a");
   ("/proj/b.aar", "com.shared");
   ("/proj/c.aar", "com.shared")].

Fixpoint assoc {A} (l : list (string * A)) (k : string) : option A :=
  match l with
  | [] => None
  | (k', v) :: l' => if String.eqb k' k then Some v else assoc l' k
  end.

Definition readStream (path : string) : list StreamEvent :=
  match assoc archives path with
  | Some bs => [EvReadable bs; EvReadableNull]
  | None => [EvError "ENOENT"]
  end.

Definition transform (d : list string) (o : TransformOptions)
  : (string + TransformResult) * list string :=
  match assoc manifests (opt_aarPathAndFilename o) with
  | Some pkg =>
      let dir := opt_outputPath o +:+ "/" +:+ pkg in
      (inr {| res_packageName := pkg; res_explodedPath := dir;
              res_jars := [dir +:+ "/classes.jar"]; res_nativeLibraries := [] |},
       dir :: d)
  | None => (inl "not an archive", d)
  end.

Definition moduleA : ModuleInfo.t := ModuleInfo.Build "ti.a" "/mod".

Definition recA : LibraryInfo :=
  {| packageName := "com.a"; explodedPath := "/build/exploded-aar/com.a";
     jars := ["/build/exploded-aar/com.a/classes.jar"]; nativeLibraries := [];
     sha256 := "41";
     task := {| aarPathAndFilename := "/mod/lib/a.aar";
                originType := LIBRARY_ORIGIN_MODULE moduleA |} |}.

Definition recOld : LibraryInfo :=
  {| packageName := "com.old"; explodedPath := "/build/exploded-aar/com.old";
     jars := []; nativeLibraries := []; sha256 := "4f";
     task := {| aarPathAndFilename := "/proj/old.aar";
                originType := LIBRARY_ORIGIN_PORJECT |} |}.

(** The cache files the sample parser understands. *)
Definition parse (s : string) : option (gmap string CacheValue) :=
  if String.eqb s "{}" then Some ∅
  else if String.eqb s "current" then
    Some (<["data-version" := CVersion "1"]>
            (<["41" := CRecord recA]> (<["4f" := CRecord recOld]> ∅)))
  else if String.eqb s "outdated" then
    Some (<["data-version" := CVersion "0"]> (<["41" := CRecord recA]> ∅))
  else None.

Definition stringify (m : gmap string CacheValue) : string :=
  "keys:" +:+ String.concat "," (map_to_list m).*1.

Definition platform (fault : option nat) : Platform :=
  {| Disk := list string;
     Disk_existsSync d p := existsb (String.eqb p) d;
     readdirSync d p := if String.eqb p "/mod/lib"
                        then ["a.aar"; "notes.txt"] else [];
     createReadStream := readStream;
     AarTransformer_transform := transform;
     sha1 bs := bs;
     JSON_parse := parse;
     JSON_stringify := stringify;
     path_join a b := a +:+ "/" +:+ b;
     path_dirname p := "/build/exploded-aar";
     write_fault _ _ := fault |}.

(** The platform on which every write completes, and the one on which a
    write fails after its first byte. *)
Definition reliable : Platform := platform None.
Definition failing : Platform := platform (Some 1).

Definition builder0 : Builder :=
  {| projectDir := "/proj"; projLibDir := "/mod/lib"; nativeLibModules := [moduleA];
     buildIntermediatesDir := "/build"; buildBinAssetsDir := "/bin/assets";
     localJniGenDir := "/jni"; classPaths := ∅; androidLibraries := [] |}.

Definition taskA : TransformTask :=
  {| aarPathAndFilename := "/mod/lib/a.aar";
     originType := LIBRARY_ORIGIN_MODULE moduleA |}.
Definition taskACopy : TransformTask :=
  {| aarPathAndFilename := "/proj/a-copy.aar"; originType := LIBRARY_ORIGIN_PORJECT |}.
Definition taskB : TransformTask :=
  {| aarPathAndFilename := "/proj/b.aar"; originType := LIBRARY_ORIGIN_PORJECT |}.
Definition taskC : TransformTask :=
  {| aarPathAndFilename := "/proj/c.aar"; originType := LIBRARY_ORIGIN_PORJECT |}.
Definition taskMissing : TransformTask :=
  {| aarPathAndFilename := "/proj/missing.aar"; originType := LIBRARY_ORIGIN_PORJECT |}.

Definition cacheFile : string := "/build/exploded-aar/state.json".

(** The records the sample transformer yields for [b.aar] and [c.aar]. *)
Definition recB : LibraryInfo :=
  {| packageName := "com.shared"; explodedPath := "/build/exploded-aar/com.shared";
     jars := ["/build/exploded-aar/com.shared/classes.jar"]; nativeLibraries := [];
     sha256 := "42"; task := taskB |}.
Definition recC : LibraryInfo :=
  {| packageName := "com.shared"; explodedPath := "/build/exploded-aar/com.shared";
     jars := ["/build/exploded-aar/com.shared/classes.jar"]; nativeLibraries := [];
     sha256 := "43"; task := taskC |}.

(** The run of the hook on the reliable platform, application variant. *)
Definition run (transformTasks : list TransformTask) (fs : FileSystem)
    (d : list string) : RunResult :=
  @transformAndroidLibraries reliable transformTasks builder0 BUILD_VARIANT_APP [] fs d.

(** The state the series starts from, and the state after a list of tasks. *)
Definition start (fs : FileSystem) (d : list string) : @State reliable :=
  (@startRun reliable builder0 [] fs d).1.1.
Definition after (transformTasks : list TransformTask) (fs : FileSystem)
    (d : list string) : @State reliable :=
  @state_of reliable unit
    (@eachSeries reliable BUILD_VARIANT_APP transformTasks (start fs d)).

Definition noFiles : FileSystem := {| files := ∅ |}.
Definition withCacheFile (content : string) : FileSystem :=
  {| files := {[ cacheFile := content ]} |}.

(** A platform whose serializer and parser are inverse to each other on a
    table of cache contents: the empty cache and the cache left by a run
    over [a.aar] and [b.aar]. *)
Definition afterAB : gmap string CacheValue :=
  <["data-version" := CVersion "1"]>
    (<["41" := CRecord recA]> (<["42" := CRecord recB]> ∅)).

Definition jsonTable : list (string * gmap string CacheValue) :=
  [("{}", ∅); ("{a,b}", afterAB)].

Definition stringifyTable (m : gmap string CacheValue) : string :=
  match List.find (fun e => bool_decide (e.2 = m)) jsonTable with
  | Some e => e.1
  | None => "keys:" +:+ String.concat "," (map_to_list m).*1
  end.

Definition tabled : Platform :=
  {| Disk := list string;
     Disk_existsSync d p := existsb (String.eqb p) d;
     readdirSync d p := [];
     createReadStream := readStream;
     AarTransformer_transform := transform;
     sha1 bs := bs;
     JSON_parse := assoc jsonTable;
     JSON_stringify := stringifyTable;
     path_join a b := a +:+ "/" +:+ b;
     path_dirname p := "/build/exploded-aar";
     write_fault _ _ := None |}.

End Sample.

(** * Properties *)

(** ** Strings and hex digests *)

Lemma append_assoc (a b c : string) : (a +:+ b) +:+ c = a +:+ (b +:+ c).
Proof.
  induction a as [|x a IH]; [reflexivity|].
  change (String x ((a +:+ b) +:+ c) = String x (a +:+ (b +:+ c))).
  now f_equal.
Qed.

Lemma append_nil_r (a : string) : a +:+ "" = a.
Proof.
  induction a as [|x a IH]; [reflexivity|].
  change (String x (a +:+ "") = String x a). now f_equal.
Qed.

Lemma is_infix_refl (s : string) : is_infix s s.
Proof. exists "", "". cbn. now rewrite append_nil_r. Qed.

Lemma is_infix_app_l (s m post : string) : is_infix s m -> is_infix s (m +:+ post).
Proof.
  intros (p & q & ->). exists p, (q +:+ post).
  now rewrite !append_assoc.
Qed.

Lemma is_infix_app_r (s m pre : string) : is_infix s m -> is_infix s (pre +:+ m).
Proof.
  intros (p & q & ->). exists (pre +:+ p), q.
  now rewrite !append_assoc.
Qed.

Lemma ends_with_refl (s : string) : ends_with s s.
Proof. now exists "". Qed.

Lemma ends_with_app_r (s m pre : string) : ends_with s m -> ends_with s (pre +:+ m).
Proof. intros (p & ->). exists (pre +:+ p). now rewrite append_assoc. Qed.

Ltac find_infix :=
  solve [ apply is_infix_refl
        | apply is_infix_app_l; find_infix
        | apply is_infix_app_r; find_infix ].

Lemma hex_digit_in_alphabet (n : N) : hex_digit n ∈ hex_alphabet.
Proof.
  unfold hex_digit. apply list_elem_of_In.
  destruct (Nat.lt_ge_cases (N.to_nat n) (length hex_alphabet)) as [Hlt|Hge].
  - now apply nth_In.
  - rewrite nth_overflow by exact Hge. cbn. now left.
Qed.

Lemma hex_digit_not_t (n : N) : hex_digit n <> "t"%char.
Proof.
  intros Heq. pose proof (hex_digit_in_alphabet n) as Hin.
  rewrite Heq in Hin. unfold hex_alphabet in Hin.
  repeat (apply elem_of_cons in Hin as [Hin|Hin]; [discriminate Hin|]).
  now apply elem_of_nil in Hin.
Qed.

(** A hex digest is never the reserved key: its third character would be a [t]. *)
Lemma hex_encode_not_version (bs : list Byte.byte) :
  hex_encode bs <> "data-version".
Proof.
  destruct bs as [|b1 [|b2 bs]]; cbn; try discriminate.
  intros Heq. injection Heq as _ _ Ht _.
  now apply hex_digit_not_t in Ht.
Qed.

(** ** SimpleFileCache *)

Lemma has_true (c : SimpleFileCache.t) (key : string) :
  SimpleFileCache.has c key = true <-> is_Some (SimpleFileCache.data c !! key).
Proof. unfold SimpleFileCache.has. apply bool_decide_eq_true. Qed.

Lemma has_false (c : SimpleFileCache.t) (key : string) :
  SimpleFileCache.has c key = false <-> SimpleFileCache.data c !! key = None.
Proof.
  unfold SimpleFileCache.has. rewrite bool_decide_eq_false.
  now rewrite eq_None_not_Some.
Qed.

Lemma get_lookup (c : SimpleFileCache.t) (key : string) :
  SimpleFileCache.get c key = SimpleFileCache.data c !! key.
Proof.
  unfold SimpleFileCache.get.
  destruct (SimpleFileCache.has c key) eqn:Hhas; [reflexivity|].
  symmetry. now apply has_false.
Qed.

Lemma data_remove (c : SimpleFileCache.t) (key : string) :
  SimpleFileCache.data (SimpleFileCache.remove c key)
  = delete key (SimpleFileCache.data c).
Proof.
  unfold SimpleFileCache.remove.
  destruct (SimpleFileCache.has c key) eqn:Hhas; [reflexivity|].
  apply has_false in Hhas. now rewrite delete_id.
Qed.

Lemma path_remove (c : SimpleFileCache.t) (key : string) :
  SimpleFileCache.cachePathAndFilename (SimpleFileCache.remove c key)
  = SimpleFileCache.cachePathAndFilename c.
Proof. unfold SimpleFileCache.remove. now destruct (SimpleFileCache.has c key). Qed.

Lemma elem_of_keys (c : SimpleFileCache.t) (key : string) :
  key ∈ SimpleFileCache.keys c <-> is_Some (SimpleFileCache.data c !! key).
Proof.
  unfold SimpleFileCache.keys. rewrite list_elem_of_fmap. split.
  - intros ([k v] & -> & Hin). apply elem_of_map_to_list in Hin. cbn. eauto.
  - intros [v Hv]. exists (key, v). split; [reflexivity|].
    now apply elem_of_map_to_list.
Qed.

Lemma lookup_foldl_remove (ks : list string) (c : SimpleFileCache.t) (k : string) :
  SimpleFileCache.data (foldl SimpleFileCache.remove c ks) !! k
  = if decide (k ∈ ks) then None else SimpleFileCache.data c !! k.
Proof.
  revert c. induction ks as [|k0 ks IH]; intros c; cbn [foldl].
  - destruct (decide (k ∈ [])) as [Hin|_]; [|reflexivity].
    now apply elem_of_nil in Hin.
  - rewrite IH, data_remove.
    destruct (decide (k ∈ ks)) as [Hin|Hnin].
    + rewrite decide_True by (apply elem_of_cons; now right). reflexivity.
    + destruct (decide (k = k0)) as [->|Hne].
      * rewrite decide_True by (apply elem_of_cons; now left).
        apply lookup_delete_eq.
      * rewrite decide_False.
        -- now apply lookup_delete_ne.
        -- intros [?|?]%elem_of_cons; congruence.
Qed.

Lemma path_foldl_remove (ks : list string) (c : SimpleFileCache.t) :
  SimpleFileCache.cachePathAndFilename (foldl SimpleFileCache.remove c ks)
  = SimpleFileCache.cachePathAndFilename c.
Proof.
  revert c. induction ks as [|k0 ks IH]; intros c; cbn [foldl]; [reflexivity|].
  now rewrite IH, path_remove.
Qed.

(** ** [indexOf] and the keys swept at the end of a run *)

Lemma indexOf_from_absent (l : list string) (x : string) (i : Z) :
  (0 <= i)%Z -> (indexOf_from l x i = -1)%Z <-> x ∉ l.
Proof.
  revert i. induction l as [|y l IH]; intros i Hi; cbn.
  - split; [intros _; apply not_elem_of_nil|reflexivity].
  - rewrite not_elem_of_cons.
    destruct (String.eqb_spec y x) as [->|Hne].
    + split; [lia|intros [Hxx _]; congruence].
    + rewrite IH by lia. split; [intros Hnin; split; congruence|tauto].
Qed.

Lemma indexOf_absent (l : list string) (x : string) :
  (indexOf l x =? -1)%Z = true <-> x ∉ l.
Proof. rewrite Z.eqb_eq. now apply indexOf_from_absent. Qed.

Lemma elem_of_unusedKeys (c : SimpleFileCache.t) (hashes : list string) (k : string) :
  k ∈ unusedKeys c hashes
  <-> is_Some (SimpleFileCache.data c !! k) /\ k <> "data-version" /\ k ∉ hashes.
Proof.
  unfold unusedKeys. rewrite list_elem_of_In, filter_In, <- list_elem_of_In.
  rewrite elem_of_keys.
  destruct (String.eqb_spec k "data-version") as [->|Hne].
  - split; [intros [_ Hf]; discriminate Hf|intros (_ & Hf & _); congruence].
  - rewrite indexOf_absent. tauto.
Qed.

Lemma elem_of_hashes (m : gmap string LibraryInfo) (k : string) :
  k ∈ (map_to_list m).*1 <-> is_Some (m !! k).
Proof.
  rewrite list_elem_of_fmap. split.
  - intros ([k' v] & -> & Hin). apply elem_of_map_to_list in Hin. cbn. eauto.
  - intros [v Hv]. exists (k, v). split; [reflexivity|].
    now apply elem_of_map_to_list.
Qed.

Section Properties.
Context `{Platform}.

(** ** hashFile *)

Lemma hashFile_listen_Done (events : list StreamEvent) (hash : list Byte.byte)
    (st st' : State) (h : string) :
  hashFile_listen hash events st = Done h st'
  <-> st' = st
      /\ exists bytes, bytesRead events = Some bytes
                       /\ h = hex_encode (sha1 (hash ++ bytes)%list).
Proof.
  revert hash. induction events as [|[data| |message] events IH]; intros hash; cbn.
  - split; [discriminate|]. intros (_ & bytes & Hb & _). discriminate Hb.
  - rewrite IH. split.
    + intros (-> & bytes & Hb & ->). split; [reflexivity|].
      exists (data ++ bytes)%list. rewrite Hb. cbn.
      now rewrite app_assoc.
    + intros (-> & bytes & Hb & ->). split; [reflexivity|].
      destruct (bytesRead events) as [rest|]; [|discriminate Hb].
      cbn in Hb. injection Hb as <-. exists rest.
      now rewrite app_assoc.
  - split.
    + intros [= <- <-]. split; [reflexivity|]. exists []. now rewrite app_nil_r.
    + intros (-> & bytes & [= <-] & ->). now rewrite app_nil_r.
  - split; [discriminate|]. intros (_ & bytes & Hb & _). discriminate Hb.
Qed.

(** [hashFile] has no path on which it hands an error to [done]. *)
Lemma hashFile_listen_not_Failed (events : list StreamEvent)
    (hash : list Byte.byte) (st st' : State) (err : JsError) :
  hashFile_listen hash events st <> Failed err st'.
Proof.
  revert hash. induction events as [|[data| |message] events IH]; intros hash; cbn;
    try discriminate. apply IH.
Qed.

Lemma hashFile_Done (t : TransformTask) (st st' : State) (h : string) :
  hashFile t st = Done h st' <-> st' = st /\ digestOf t = Some h.
Proof.
  unfold hashFile, digestOf. rewrite hashFile_listen_Done. cbn.
  split.
  - intros (-> & bytes & -> & ->). split; reflexivity.
  - intros (-> & Hd). split; [reflexivity|].
    destruct (bytesRead _) as [bytes|]; [|discriminate Hd].
    injection Hd as <-. now exists bytes.
Qed.

Lemma digestOf_not_version (t : TransformTask) (h : string) :
  digestOf t = Some h -> h <> "data-version".
Proof.
  unfold digestOf. destruct (bytesRead _) as [bytes|]; [|discriminate].
  intros [= <-]. apply hex_encode_not_version.
Qed.

(** ** skipLibraryIfDuplicate *)

Lemma skipLibraryIfDuplicate_unseen (t : TransformTask) (h : string) (st : State) :
  libraryHashMap st !! h = None -> skipLibraryIfDuplicate t h st = Done h st.
Proof. intros Hnone. unfold skipLibraryIfDuplicate. now rewrite Hnone. Qed.

(** A record carries its archive's path under [task], not as a property of
    its own, so the trace message of the duplicate branch cannot be built. *)
Lemma skipLibraryIfDuplicate_seen (t : TransformTask) (h : string) (st : State)
    (lib : LibraryInfo) :
  libraryHashMap st !! h = Some lib ->
  skipLibraryIfDuplicate t h st
  = Thrown (TypeError "Cannot read property 'cyan' of undefined") st.
Proof. intros Hsome. unfold skipLibraryIfDuplicate. now rewrite Hsome. Qed.

Lemma skipLibraryIfDuplicate_Done (t : TransformTask) (h h' : string)
    (st st' : State) :
  skipLibraryIfDuplicate t h st = Done h' st'
  <-> h' = h /\ st' = st /\ libraryHashMap st !! h = None.
Proof.
  split.
  - destruct (libraryHashMap st !! h) as [lib|] eqn:Hl.
    + rewrite (skipLibraryIfDuplicate_seen _ _ _ _ Hl). discriminate.
    + rewrite (skipLibraryIfDuplicate_unseen _ _ _ Hl). now intros [= <- <-].
  - intros (-> & -> & Hl). now apply skipLibraryIfDuplicate_unseen.
Qed.

Lemma skipLibraryIfDuplicate_not_Failed (t : TransformTask) (h : string)
    (st st' : State) (err : JsError) :
  skipLibraryIfDuplicate t h st <> Failed err st'.
Proof.
  destruct (libraryHashMap st !! h) as [lib|] eqn:Hl.
  - rewrite (skipLibraryIfDuplicate_seen _ _ _ _ Hl). discriminate.
  - rewrite (skipLibraryIfDuplicate_unseen _ _ _ Hl). discriminate.
Qed.

(** ** doTransform *)

Lemma doTransform_hit (v : BuildVariant) (t : TransformTask) (h : string)
    (st : State) (r : LibraryInfo) :
  cacheHit t h st r ->
  doTransform v t h st = Done r (trace (TraceNotChanged (aarPathAndFilename t)) st).
Proof.
  intros (Hc & Hp & He). unfold doTransform.
  rewrite (proj2 (has_true _ _)) by (rewrite Hc; eauto).
  rewrite get_lookup, Hc, Hp, String.eqb_refl, He. reflexivity.
Qed.

Lemma doTransform_miss (v : BuildVariant) (t : TransformTask) (h : string)
    (st : State) :
  (forall x, SimpleFileCache.data (cache st) !! h = Some x -> exists r, x = CRecord r) ->
  (forall r, ~ cacheHit t h st r) ->
  doTransform v t h st = runTransformer v t h st.
Proof.
  intros Hrec Hmiss. unfold doTransform.
  destruct (SimpleFileCache.has (cache st) h) eqn:Hhas; [|reflexivity].
  rewrite get_lookup.
  destruct (SimpleFileCache.data (cache st) !! h) as [x|] eqn:Hc.
  - destruct (Hrec x eq_refl) as [r ->].
    destruct (String.eqb_spec (aarPathAndFilename (task r)) (aarPathAndFilename t))
      as [Hp|Hp]; [|reflexivity].
    destruct (Disk_existsSync (disk st) (explodedPath r)) eqn:He; [|reflexivity].
    exfalso. apply (Hmiss r). repeat split; assumption.
  - apply has_true in Hhas. rewrite Hc in Hhas. now destruct Hhas.
Qed.

Lemma runTransformer_calls (v : BuildVariant) (t : TransformTask) (h : string)
    (st : State) :
  transformCalls (state_of (runTransformer v t h st))
  = (transformCalls st ++ [transformOptions_for v t (builder st)])%list.
Proof.
  unfold runTransformer.
  destruct (AarTransformer_transform _ _) as [[err|result] disk']; reflexivity.
Qed.

Lemma runTransformer_Done (v : BuildVariant) (t : TransformTask) (h : string)
    (st st' : State) (r : LibraryInfo) :
  runTransformer v t h st = Done r st' ->
  sha256 r = h /\ task r = t /\ sameRegistries st st'
  /\ transformCalls st' = (transformCalls st ++ [transformOptions_for v t (builder st)])%list.
Proof.
  unfold runTransformer.
  destruct (AarTransformer_transform _ _) as [[err|result] disk']; [discriminate|].
  intros [= <- <-]. cbn. repeat split; reflexivity.
Qed.

Lemma doTransform_Done (v : BuildVariant) (t : TransformTask) (h : string)
    (st st' : State) (r : LibraryInfo) :
  doTransform v t h st = Done r st' ->
  (cacheHit t h st r /\ st' = trace (TraceNotChanged (aarPathAndFilename t)) st)
  \/ runTransformer v t h st = Done r st'.
Proof.
  unfold doTransform.
  destruct (SimpleFileCache.has (cache st) h) eqn:Hhas; [|now right].
  rewrite get_lookup.
  destruct (SimpleFileCache.data (cache st) !! h) as [[s|r']|] eqn:Hc;
    try discriminate.
  destruct (String.eqb_spec (aarPathAndFilename (task r')) (aarPathAndFilename t))
    as [Hp|Hp]; [|now right].
  destruct (Disk_existsSync (disk st) (explodedPath r')) eqn:He; [|now right].
  cbn. intros [= <- <-]. left. repeat split; assumption.
Qed.

Lemma doTransform_Done_same (v : BuildVariant) (t : TransformTask) (h : string)
    (st st' : State) (r : LibraryInfo) :
  doTransform v t h st = Done r st' -> sameRegistries st st'.
Proof.
  intros [[_ ->]|Hrun]%doTransform_Done.
  - repeat split; reflexivity.
  - now apply runTransformer_Done in Hrun.
Qed.

(** ** ensureUniquePackageName and updateBuilderWithTransformResult *)

Lemma ensureUniquePackageName_taken (r existing : LibraryInfo) (st : State) :
  packageNameMap st !! packageName r = Some existing ->
  ensureUniquePackageName r st = Failed (Error (conflictMessage existing r)) st.
Proof. intros Hp. unfold ensureUniquePackageName. now rewrite Hp. Qed.

Lemma ensureUniquePackageName_Done (r r' : LibraryInfo) (st st' : State) :
  ensureUniquePackageName r st = Done r' st'
  <-> r' = r /\ st' = st /\ packageNameMap st !! packageName r = None.
Proof.
  unfold ensureUniquePackageName.
  destruct (packageNameMap st !! packageName r) as [e|]; split;
    try discriminate.
  - intros (_ & _ & Hn). discriminate Hn.
  - now intros [= <- <-].
  - now intros (-> & -> & _).
Qed.

(** ** One task *)

Lemma doTransform_not_Skip (v : BuildVariant) (t : TransformTask) (h : string)
    (st st' : State) (err : JsError) :
  doTransform v t h st = Failed err st' -> instanceof_SkipLibraryError err = false.
Proof.
  assert (Hrun : runTransformer v t h st = Failed err st' ->
                 instanceof_SkipLibraryError err = false).
  { unfold runTransformer.
    destruct (AarTransformer_transform _ _) as [[e|result] disk'];
      [|discriminate]. now intros [= <- _]. }
  unfold doTransform.
  destruct (SimpleFileCache.has (cache st) h); [|exact Hrun].
  destruct (SimpleFileCache.get (cache st) h) as [[s|r']|]; try discriminate.
  destruct (_ && _); [discriminate|exact Hrun].
Qed.

(** A task that completes went through every step: its digest was new, a
    record came out of [doTransform], its name was free and it was committed. *)
Lemma processTask_Done (v : BuildVariant) (t : TransformTask) (st st' : State) :
  processTask v t st = Done tt st' ->
  exists h r st1,
    digestOf t = Some h
    /\ libraryHashMap st !! h = None
    /\ doTransform v t h st = Done r st1
    /\ packageNameMap st1 !! packageName r = None
    /\ updateBuilderWithTransformResult v r st1 = Done tt st'.
Proof.
  unfold processTask, waterfall.
  destruct (hashFile t st) as [h s1|e s1|e s1|s1] eqn:Hh; cbn;
    try discriminate;
    [|now apply hashFile_listen_not_Failed in Hh].
  apply hashFile_Done in Hh as [-> Hd].
  destruct (skipLibraryIfDuplicate t h st) as [h' s2|e s2|e s2|s2] eqn:Hs; cbn;
    try discriminate;
    [|now apply skipLibraryIfDuplicate_not_Failed in Hs].
  apply skipLibraryIfDuplicate_Done in Hs as (-> & -> & Hl).
  destruct (doTransform v t h st) as [r s3|e s3|e s3|s3] eqn:Ht; cbn;
    try discriminate.
  - destruct (ensureUniquePackageName r s3) as [r' s4|e s4|e s4|s4] eqn:He;
      cbn; try discriminate.
    + apply ensureUniquePackageName_Done in He as (-> & -> & Hn).
      intros Hu. exists h, r, s3. repeat split; assumption.
    + unfold ensureUniquePackageName in He.
      destruct (packageNameMap s3 !! packageName r); [|discriminate He].
      injection He as <- <-. discriminate.
  - apply doTransform_not_Skip in Ht. rewrite Ht. discriminate.
Qed.

(** ** The series of tasks *)

Lemma eachSeries_app (v : BuildVariant) (pre post : list TransformTask) (st : State) :
  eachSeries v (pre ++ post) st
  = andThen (eachSeries v pre st) (fun _ => eachSeries v post).
Proof.
  revert st. induction pre as [|t pre IH]; intros st; cbn; [reflexivity|].
  destruct (processTask v t st) as [[] s|e s|e s|s]; cbn; auto.
Qed.

(** A property kept by every completed task holds after every completed series. *)
Lemma eachSeries_Done_ind (P : State -> Prop) (v : BuildVariant)
    (tasks : list TransformTask) :
  (forall t st st', t ∈ tasks -> P st -> processTask v t st = Done tt st' -> P st') ->
  forall st st', P st -> eachSeries v tasks st = Done tt st' -> P st'.
Proof.
  induction tasks as [|t tasks IH]; intros Hstep st st' HP; cbn.
  - now intros [= <-].
  - destruct (processTask v t st) as [[] s|e s|e s|s] eqn:Hp; cbn;
      try discriminate.
    apply IH.
    + intros t' s1 s2 Hin. apply Hstep. now apply list_elem_of_further.
    + apply (Hstep t st); [apply list_elem_of_here|assumption..].
Qed.

Lemma transformAndroidLibraries_nonempty (tasks : list TransformTask)
    (b : Builder) (v : BuildVariant) (log : list LogEntry) (fs fs1 : FileSystem)
    (d : Disk) (st0 : State) (ops1 : list FsOp) :
  startRun b log fs d = (st0, fs1, ops1) ->
  tasks <> [] ->
  transformAndroidLibraries tasks b v log fs d
  = finishRun (eachSeries v tasks st0) fs1 ops1.
Proof.
  intros Hstart Hne. destruct tasks as [|t ts]; [congruence|].
  unfold transformAndroidLibraries. now rewrite Hstart.
Qed.

(** ** The registries, the builder's list and the cache move together *)

Lemma doTransform_Done_digest (v : BuildVariant) (t : TransformTask) (h : string)
    (st st' : State) (r : LibraryInfo) :
  wellKeyed (SimpleFileCache.data (cache st)) ->
  doTransform v t h st = Done r st' -> sha256 r = h.
Proof.
  intros Hwk [[(Hc & _) _]|Hrun]%doTransform_Done.
  - now apply Hwk in Hc.
  - now apply runTransformer_Done in Hrun.
Qed.

Lemma wellKeyed_insert (d : gmap string CacheValue) (r : LibraryInfo) :
  wellKeyed d -> wellKeyed (<[sha256 r := CRecord r]> d).
Proof.
  intros Hwk k r'. rewrite lookup_insert. case_decide as Hk.
  - now intros [= <-].
  - apply Hwk.
Qed.







(** ** The conflict message *)

Lemma is_infix_trans (a b c : string) : is_infix a b -> is_infix b c -> is_infix a c.
Proof.
  intros (p & q & ->) (p' & q' & ->). exists (p' +:+ p), (q +:+ q').
  now rewrite !append_assoc.
Qed.

Lemma formatDupeInfo_path (lib : LibraryInfo) :
  is_infix (aarPathAndFilename (task lib)) (formatDupeInfo lib).
Proof. unfold formatDupeInfo. destruct (originType (task lib)); find_infix. Qed.

Lemma formatDupeInfo_hash (lib : LibraryInfo) :
  is_infix (sha256 lib) (formatDupeInfo lib).
Proof. unfold formatDupeInfo. destruct (originType (task lib)); find_infix. Qed.

Lemma formatDupeInfo_module (lib : LibraryInfo) (moduleInfo : ModuleInfo.t) :
  originType (task lib) = LIBRARY_ORIGIN_MODULE moduleInfo ->
  formatDupeInfo lib
  = aarPathAndFilename (task lib) +:+ " (hash: " +:+ sha256 lib
      +:+ ", origin: Module " +:+ ModuleInfo.id moduleInfo +:+ ")".
Proof. intros Ho. unfold formatDupeInfo. rewrite Ho. now rewrite !append_assoc. Qed.

Lemma formatDupeInfo_project (lib : LibraryInfo) :
  originType (task lib) = LIBRARY_ORIGIN_PORJECT ->
  formatDupeInfo lib
  = aarPathAndFilename (task lib) +:+ " (hash: " +:+ sha256 lib
      +:+ ", origin: Project)".
Proof. intros Ho. unfold formatDupeInfo. rewrite Ho. now rewrite !append_assoc. Qed.

Lemma conflictMessage_existing (existing lib : LibraryInfo) :
  is_infix (formatDupeInfo existing) (conflictMessage existing lib).
Proof. unfold conflictMessage. find_infix. Qed.

Lemma conflictMessage_new (existing lib : LibraryInfo) :
  is_infix (formatDupeInfo lib) (conflictMessage existing lib).
Proof. unfold conflictMessage. find_infix. Qed.

Lemma namesLibrary_of_info (msg : string) (lib : LibraryInfo) :
  is_infix (formatDupeInfo lib) msg -> namesLibrary msg lib.
Proof.
  intros Hin. repeat split.
  - exact (is_infix_trans _ _ _ (formatDupeInfo_path lib) Hin).
  - exact (is_infix_trans _ _ _ (formatDupeInfo_hash lib) Hin).
  - intros moduleInfo Ho. now rewrite <- (formatDupeInfo_module lib moduleInfo Ho).
  - intros Ho. now rewrite <- (formatDupeInfo_project lib Ho).
Qed.

Lemma conflictMessage_guidance (existing lib : LibraryInfo) :
  guidanceByOrigins (conflictMessage existing lib)
    (originType (task existing)) (originType (task lib)).
Proof.
  unfold guidanceByOrigins, conflictMessage, conflictGuidance.
  destruct (originType (task existing)), (originType (task lib)); cbn;
    repeat split; intros; try discriminate;
    apply ends_with_app_r, ends_with_refl.
Qed.

(** C1. When the record of a task (from a cache hit or a fresh transform)
    declares a package name that an earlier accepted record holds, the run
    calls back with a conflict error; the message names both libraries
    (path, digest and origin) and ends with the guidance for the two
    origins; the registries, the cache and the builder are as they were, so
    the earlier record keeps the name, and no later task is processed. *)
Theorem package_name_conflict_fails_run
    (b : Builder) (v : BuildVariant) (log : list LogEntry) (fs fs1 : FileSystem)
    (d : Disk) (ops1 : list FsOp) (pre rest : list TransformTask)
    (t : TransformTask) (st0 st st1 : State) (h : string)
    (r existing : LibraryInfo) :
  startRun b log fs d = (st0, fs1, ops1) ->
  eachSeries v pre st0 = Done tt st ->
  digestOf t = Some h ->
  libraryHashMap st !! h = None ->
  doTransform v t h st = Done r st1 ->
  packageNameMap st !! packageName r = Some existing ->
  let msg := conflictMessage existing r in
  let run := transformAndroidLibraries (pre ++ t :: rest) b v log fs d in
  called run = Called (Some (Error msg))
  /\ run_state run = Some st1
  /\ sameRegistries st st1
  /\ packageNameMap st1 !! packageName r = Some existing
  /\ fs_ops run = ops1 /\ fs_after run = fs1
  /\ namesLibrary msg existing /\ namesLibrary msg r
  /\ guidanceByOrigins msg (originType (task existing)) (originType (task r)).
Proof.
  intros Hstart Hpre Hd Hl Ht Hn msg run.
  pose proof (doTransform_Done_same _ _ _ _ _ _ Ht) as Hsame.
  assert (Hn1 : packageNameMap st1 !! packageName r = Some existing).
  { destruct Hsame as (_ & _ & -> & _). exact Hn. }
  assert (Hseries : eachSeries v (pre ++ t :: rest) st0 = Failed (Error msg) st1).
  { rewrite eachSeries_app, Hpre. cbn.
    unfold processTask, waterfall.
    rewrite (proj2 (hashFile_Done t st st h)) by auto. cbn.
    rewrite skipLibraryIfDuplicate_unseen by exact Hl. cbn.
    rewrite Ht. cbn.
    rewrite (ensureUniquePackageName_taken _ _ _ Hn1). reflexivity. }
  assert (Hrun : run = finishRun (Failed (Error msg) st1) fs1 ops1).
  { subst run. rewrite (transformAndroidLibraries_nonempty _ _ _ _ _ _ _ _ _ Hstart).
    - now rewrite Hseries.
    - now destruct pre. }
  rewrite Hrun. cbn.
  split; [reflexivity|]. split; [reflexivity|]. split; [exact Hsame|].
  split; [exact Hn1|]. split; [reflexivity|]. split; [reflexivity|].
  split; [apply namesLibrary_of_info, conflictMessage_existing|].
  split; [apply namesLibrary_of_info, conflictMessage_new|].
  apply conflictMessage_guidance.
Qed.

(** ** Opening the cache *)

Lemma constructor_parsed (fs : FileSystem) (path content : string)
    (stored : gmap string CacheValue) :
  files fs !! path = Some content ->
  JSON_parse content = Some stored ->
  SimpleFileCache.constructor fs path = (SimpleFileCache.Build path stored, fs, []).
Proof.
  intros Hf Hp. unfold SimpleFileCache.constructor, fs_existsSync, fs_readFileSync.
  rewrite Hf. rewrite bool_decide_eq_true_2 by eauto. cbn. now rewrite Hp.
Qed.

Lemma openCache_outdated (loaded : SimpleFileCache.t) (x : CacheValue) :
  SimpleFileCache.data loaded !! "data-version" = Some x ->
  x <> CVersion HOOK_DATA_VERSION ->
  openCache loaded
  = (SimpleFileCache.Build (SimpleFileCache.cachePathAndFilename loaded)
       {["data-version" := CVersion HOOK_DATA_VERSION]}, true).
Proof.
  intros Hx Hne. unfold openCache.
  rewrite (proj2 (has_true _ _)) by (rewrite Hx; eauto).
  rewrite get_lookup, Hx.
  assert (Hdiff : version_differs (Some x) = true).
  { destruct x as [s|r]; [|reflexivity]. cbn.
    destruct (String.eqb_spec s HOOK_DATA_VERSION) as [->|_]; [congruence|reflexivity]. }
  rewrite Hdiff. unfold SimpleFileCache.flush, SimpleFileCache.set. cbn.
  now rewrite insert_empty.
Qed.

(** ** Runs on a cache that holds nothing but what this run stored *)

Lemma doTransform_uncached (v : BuildVariant) (t : TransformTask) (h : string)
    (st : State) :
  SimpleFileCache.data (cache st) !! h = None ->
  doTransform v t h st = runTransformer v t h st.
Proof.
  intros Hnone. apply doTransform_miss.
  - intros x Hx. congruence.
  - intros r (Hc & _). congruence.
Qed.

Lemma onlyThisRun_uncached (t : TransformTask) (h : string) (st : State) :
  onlyThisRun st -> digestOf t = Some h -> libraryHashMap st !! h = None ->
  SimpleFileCache.data (cache st) !! h = None.
Proof.
  intros Honly Hd Hl. apply eq_None_not_Some. intros Hsome.
  destruct (Honly h Hsome) as [->|Hin].
  - now apply digestOf_not_version in Hd.
  - rewrite Hl in Hin. now destruct Hin.
Qed.

Lemma processTask_fresh (b : Builder) (v : BuildVariant) (t : TransformTask)
    (st st' : State) :
  onlyThisRun st ->
  (forall t', transformOptions_for v t' (builder st) = transformOptions_for v t' b) ->
  processTask v t st = Done tt st' ->
  onlyThisRun st'
  /\ (forall t', transformOptions_for v t' (builder st') = transformOptions_for v t' b)
  /\ transformCalls st' = (transformCalls st ++ [transformOptions_for v t b])%list.
Proof.
  intros Honly Hdirs Hp.
  apply processTask_Done in Hp as (h & r & st1 & Hd & Hl & Ht & Hfree & Hu).
  rewrite doTransform_uncached in Ht by eauto using onlyThisRun_uncached.
  apply runTransformer_Done in Ht as (Hsha & _ & (Hc1 & Hl1 & Hn1 & Hb1) & Hcalls).
  unfold updateBuilderWithTransformResult in Hu. injection Hu as <-.
  split; [|split]; cbn.
  - intros k. rewrite Hc1, Hl1. cbn. rewrite !lookup_insert.
    case_decide; [eauto|]. apply Honly.
  - intros t'. rewrite <- Hdirs, Hb1. reflexivity.
  - now rewrite Hcalls, Hdirs.
Qed.

Lemma eachSeries_fresh (b : Builder) (v : BuildVariant)
    (tasks : list TransformTask) (st st' : State) :
  onlyThisRun st ->
  (forall t', transformOptions_for v t' (builder st) = transformOptions_for v t' b) ->
  eachSeries v tasks st = Done tt st' ->
  onlyThisRun st'
  /\ transformCalls st' = (transformCalls st ++ callsFor v b tasks)%list.
Proof.
  revert st. induction tasks as [|t tasks IH]; intros st Honly Hdirs; cbn.
  - intros [= <-]. split; [assumption|]. now rewrite app_nil_r.
  - destruct (processTask v t st) as [[] s|e s|e s|s] eqn:Hp; cbn;
      try discriminate.
    destruct (processTask_fresh b v t st s Honly Hdirs Hp) as (Ho & Hd & Hc).
    intros Hrest. destruct (IH s Ho Hd Hrest) as [Ho' Hc'].
    split; [assumption|]. rewrite Hc', Hc. now rewrite <- app_assoc.
Qed.

Lemma finishRun_completed (r : Step unit) (fs1 : FileSystem) (ops1 : list FsOp) :
  called (finishRun r fs1 ops1) = Called None ->
  exists st,
    r = Done tt st
    /\ run_state (finishRun r fs1 ops1)
       = Some (with_cache (cleanUp (cache st) (libraryHashMap st)) st)
    /\ write_fault (SimpleFileCache.cachePathAndFilename (cache st))
         (JSON_stringify (SimpleFileCache.data (cleanUp (cache st) (libraryHashMap st))))
       = None.
Proof.
  destruct r as [[] st|e st|e st|st]; cbn; try discriminate.
  unfold SimpleFileCache.persist, fs_writeFileSync, cleanUp. cbn.
  rewrite path_foldl_remove.
  destruct (write_fault _ _) eqn:Hw; cbn; [discriminate|].
  intros _. exists st. auto.
Qed.

(** C2. When the cache file holds a ["data-version"] entry that differs from
    [HOOK_DATA_VERSION], the run starts from a cache holding only
    ["data-version"] with the current version; after any number of completed
    tasks the transformer has been called once for each of them, in order,
    and the next task whose digest is new is transformed again; a run that
    calls back without error has transformed every input. *)
Theorem version_change_invalidates_cache
    (b : Builder) (v : BuildVariant) (log : list LogEntry) (fs : FileSystem)
    (d : Disk) (content : string) (stored : gmap string CacheValue)
    (x : CacheValue) :
  files fs !! cacheFileOf b = Some content ->
  JSON_parse content = Some stored ->
  stored !! "data-version" = Some x ->
  x <> CVersion HOOK_DATA_VERSION ->
  exists st0,
    startRun b log fs d = (st0, fs, [])
    /\ SimpleFileCache.data (cache st0)
       = {["data-version" := CVersion HOOK_DATA_VERSION]}
    /\ (forall completed st,
          eachSeries v completed st0 = Done tt st ->
          transformCalls st = callsFor v b completed
          /\ forall t h,
               digestOf t = Some h -> libraryHashMap st !! h = None ->
               andThen (andThen (hashFile t st) (skipLibraryIfDuplicate t))
                       (doTransform v t)
               = runTransformer v t h st)
    /\ (forall tasks st,
          called (transformAndroidLibraries tasks b v log fs d) = Called None ->
          run_state (transformAndroidLibraries tasks b v log fs d) = Some st ->
          transformCalls st = callsFor v b tasks).
Proof.
  intros Hf Hparse Hx Hne.
  assert (Hstart : startRun b log fs d
    = (initialState
         (SimpleFileCache.Build (cacheFileOf b)
            {["data-version" := CVersion HOOK_DATA_VERSION]}) b d
         ((log ++ [TraceCacheOutOfDate]) ++ [TracePreCompileHook])%list, fs, [])).
  { unfold startRun. rewrite (constructor_parsed _ _ _ _ Hf Hparse).
    now rewrite (openCache_outdated (SimpleFileCache.Build (cacheFileOf b) stored) x Hx Hne). }
  eexists. split; [exact Hstart|]. split; [reflexivity|].
  assert (Hseries : forall completed st,
    eachSeries v completed
      (initialState
         (SimpleFileCache.Build (cacheFileOf b)
            {["data-version" := CVersion HOOK_DATA_VERSION]}) b d
         ((log ++ [TraceCacheOutOfDate]) ++ [TracePreCompileHook])%list)
    = Done tt st ->
    onlyThisRun st /\ transformCalls st = callsFor v b completed).
  { intros completed st Hrun.
    apply (eachSeries_fresh b) in Hrun; [exact Hrun| |reflexivity].
    intros k. cbn. rewrite lookup_singleton. case_decide; [auto|].
    intros [? ?]; discriminate. }
  split.
  - intros completed st Hrun. destruct (Hseries _ _ Hrun) as [Honly Hcalls].
    split; [exact Hcalls|]. intros t h Hd Hl.
    rewrite (proj2 (hashFile_Done t st st h)) by auto. cbn.
    rewrite skipLibraryIfDuplicate_unseen by exact Hl. cbn.
    apply doTransform_uncached. eauto using onlyThisRun_uncached.
  - intros tasks st. destruct tasks as [|t ts]; [discriminate|].
    rewrite (transformAndroidLibraries_nonempty _ _ _ _ _ _ _ _ _ Hstart)
      by discriminate.
    intros Hcalled. apply finishRun_completed in Hcalled as (s & Hdone & -> & _).
    intros [= <-]. exact (proj2 (Hseries _ _ Hdone)).
Qed.

(** ** Reusing a cached record *)

Lemma cacheHit_dec (t : TransformTask) (h : string) (st : State) :
  (forall x, SimpleFileCache.data (cache st) !! h = Some x -> exists r, x = CRecord r) ->
  (exists r, cacheHit t h st r) \/ (forall r, ~ cacheHit t h st r).
Proof.
  intros Hrec. unfold cacheHit.
  destruct (SimpleFileCache.data (cache st) !! h) as [x|] eqn:Hc.
  - destruct (Hrec x eq_refl) as [r ->].
    destruct (decide (aarPathAndFilename (task r) = aarPathAndFilename t)) as [Hp|Hp].
    + destruct (Disk_existsSync (disk st) (explodedPath r)) eqn:He.
      * left. exists r. auto.
      * right. intros r' ([= <-] & _ & He'). congruence.
    + right. intros r' ([= <-] & Hp' & _). congruence.
  - right. intros r (Hc' & _). discriminate Hc'.
Qed.

(** C3. For a task whose digest [h] is not in [libraryHashMap] (the cache
    holding a record under [h], if anything): the transformer is not called
    exactly when the cache has a record under [h] whose task has this task's
    path and whose exploded directory exists; that record is then the
    task's result; otherwise the transformer is called for this task. *)
Theorem cached_record_reused_iff
    (v : BuildVariant) (t : TransformTask) (h : string) (st : State) :
  digestOf t = Some h ->
  libraryHashMap st !! h = None ->
  (forall x, SimpleFileCache.data (cache st) !! h = Some x -> exists r, x = CRecord r) ->
  let step :=
    andThen (andThen (hashFile t st) (skipLibraryIfDuplicate t)) (doTransform v t) in
  (forall r, cacheHit t h st r ->
             step = Done r (trace (TraceNotChanged (aarPathAndFilename t)) st))
  /\ ((forall r, ~ cacheHit t h st r) ->
      step = runTransformer v t h st
      /\ transformCalls (state_of step)
         = (transformCalls st ++ [transformOptions_for v t (builder st)])%list)
  /\ (transformCalls (state_of step) = transformCalls st
      <-> exists r, cacheHit t h st r).
Proof.
  intros Hd Hl Hrec step.
  assert (Hstep : step = doTransform v t h st).
  { subst step. rewrite (proj2 (hashFile_Done t st st h)) by auto. cbn.
    now rewrite skipLibraryIfDuplicate_unseen by exact Hl. }
  rewrite Hstep. clear step Hstep.
  assert (Hmiss : (forall r, ~ cacheHit t h st r) ->
    doTransform v t h st = runTransformer v t h st
    /\ transformCalls (state_of (doTransform v t h st))
       = (transformCalls st ++ [transformOptions_for v t (builder st)])%list).
  { intros Hno. rewrite (doTransform_miss v t h st Hrec Hno).
    split; [reflexivity|apply runTransformer_calls]. }
  split; [|split].
  - intros r Hhit. now apply doTransform_hit.
  - exact Hmiss.
  - split.
    + intros Hsame. destruct (cacheHit_dec t h st Hrec) as [Hhit|Hno]; [exact Hhit|].
      destruct (Hmiss Hno) as [_ Hcalls]. rewrite Hcalls in Hsame.
      apply (f_equal length) in Hsame. rewrite length_app in Hsame.
      cbn in Hsame. lia.
    + intros [r Hhit]. now rewrite (doTransform_hit v t h st r Hhit).
Qed.

(** ** The sweep at the end of a run *)

Lemma cleanUp_lookup (c : SimpleFileCache.t) (m : gmap string LibraryInfo)
    (k : string) :
  SimpleFileCache.data (cleanUp c m) !! k
  = if decide (k = "data-version" \/ is_Some (m !! k))
    then SimpleFileCache.data c !! k else None.
Proof.
  unfold cleanUp. rewrite lookup_foldl_remove.
  destruct (decide (k ∈ unusedKeys c (map_to_list m).*1)) as [Hin|Hnin].
  - apply elem_of_unusedKeys in Hin as (_ & Hne & Hnh).
    rewrite elem_of_hashes in Hnh. rewrite decide_False; [reflexivity|tauto].
  - rewrite elem_of_unusedKeys, elem_of_hashes in Hnin.
    destruct (decide (k = "data-version" \/ is_Some (m !! k))) as [_|Hno];
      [reflexivity|].
    destruct (SimpleFileCache.data c !! k) eqn:Hc; [|reflexivity].
    exfalso. apply Hnin. split; [eauto|]. tauto.
Qed.

Lemma cleanUp_path (c : SimpleFileCache.t) (m : gmap string LibraryInfo) :
  SimpleFileCache.cachePathAndFilename (cleanUp c m)
  = SimpleFileCache.cachePathAndFilename c.
Proof. apply path_foldl_remove. Qed.

Lemma constructor_path (fs fs1 : FileSystem) (path : string)
    (loaded : SimpleFileCache.t) (ops1 : list FsOp) :
  SimpleFileCache.constructor fs path = (loaded, fs1, ops1) ->
  SimpleFileCache.cachePathAndFilename loaded = path
  /\ List.filter is_write ops1 = [].
Proof.
  unfold SimpleFileCache.constructor.
  destruct (fs_existsSync fs path);
    [destruct (fs_readFileSync fs path ≫= JSON_parse)|];
    intros [= <- <- <-]; split; reflexivity.
Qed.

Lemma openCache_path (loaded : SimpleFileCache.t) :
  SimpleFileCache.cachePathAndFilename (openCache loaded).1
  = SimpleFileCache.cachePathAndFilename loaded.
Proof.
  unfold openCache.
  destruct (SimpleFileCache.has loaded "data-version");
    [destruct (version_differs _)|]; reflexivity.
Qed.


(** What [startRun] hands to the series of tasks. *)
Lemma startRun_initial (b : Builder) (log : list LogEntry) (fs fs1 : FileSystem)
    (d : Disk) (st0 : State) (ops1 : list FsOp) :
  startRun b log fs d = (st0, fs1, ops1) ->
  exists loaded log',
    SimpleFileCache.constructor fs (cacheFileOf b) = (loaded, fs1, ops1)
    /\ st0 = initialState (openCache loaded).1 b d log'.
Proof.
  unfold startRun.
  destruct (SimpleFileCache.constructor fs (cacheFileOf b)) as [[loaded f] o].
  destruct (openCache loaded) as [c flushed] eqn:Ho.
  intros [= <- <- <-]. exists loaded. eexists. split; [reflexivity|].
  now rewrite Ho.
Qed.



(** ** Loading the cache file *)

Lemma constructor_cases (fs : FileSystem) (path : string) :
  (exists content stored,
      files fs !! path = Some content /\ JSON_parse content = Some stored
      /\ SimpleFileCache.constructor fs path
         = (SimpleFileCache.Build path stored, fs, []))
  \/ (files fs !! path = None
      /\ SimpleFileCache.constructor fs path = (SimpleFileCache.Build path ∅, fs, []))
  \/ (exists content,
        files fs !! path = Some content /\ JSON_parse content = None
        /\ SimpleFileCache.constructor fs path
           = (SimpleFileCache.Build path ∅, fs_unlinkSync fs path, [OpUnlink path])).
Proof.
  unfold SimpleFileCache.constructor, fs_existsSync, fs_readFileSync.
  destruct (files fs !! path) as [content|] eqn:Hf.
  - rewrite bool_decide_eq_true_2 by eauto. cbn.
    destruct (JSON_parse content) as [stored|] eqn:Hp.
    + left. exists content, stored. auto.
    + right. right. exists content. auto.
  - rewrite bool_decide_eq_false_2 by (intros [? ?]; discriminate).
    right. left. auto.
Qed.

Lemma fs_unlinkSync_absent (fs : FileSystem) (path : string) :
  files fs !! path = None -> fs_unlinkSync fs path = fs.
Proof.
  intros Hf. destruct fs as [m]. unfold fs_unlinkSync. cbn in *.
  now rewrite delete_id.
Qed.

(** C9. Loading the cache from a path whose file is absent or does not
    parse gives an empty cache and a file system in which that path holds
    no file (nothing else is touched and nothing is written); the
    constructor has no error outcome, and a run over such a file calls back
    as, and ends in the state of, the run with no cache file at all. *)
Theorem unreadable_cache_file_recovered
    (fs : FileSystem) (b : Builder) (v : BuildVariant) (log : list LogEntry)
    (d : Disk) (tasks : list TransformTask) :
  files fs !! cacheFileOf b = None
  \/ (exists content, files fs !! cacheFileOf b = Some content
                      /\ JSON_parse content = None) ->
  (exists ops,
      SimpleFileCache.constructor fs (cacheFileOf b)
      = (SimpleFileCache.Build (cacheFileOf b) ∅, fs_unlinkSync fs (cacheFileOf b), ops)
      /\ List.filter is_write ops = [])
  /\ files (fs_unlinkSync fs (cacheFileOf b)) !! cacheFileOf b = None
  /\ (forall other, other <> cacheFileOf b ->
        files (fs_unlinkSync fs (cacheFileOf b)) !! other = files fs !! other)
  /\ let run := transformAndroidLibraries tasks b v log fs d in
     let run' := transformAndroidLibraries tasks b v log
                   (fs_unlinkSync fs (cacheFileOf b)) d in
     called run = called run' /\ run_state run = run_state run'
     /\ log_after run = log_after run'
     /\ (tasks <> [] -> fs_after run = fs_after run').
Proof.
  intros Hbad.
  assert (Hctor : exists ops,
    SimpleFileCache.constructor fs (cacheFileOf b)
    = (SimpleFileCache.Build (cacheFileOf b) ∅, fs_unlinkSync fs (cacheFileOf b), ops)
    /\ List.filter is_write ops = []).
  { destruct (constructor_cases fs (cacheFileOf b))
      as [(c & stored & Hf & Hp & _)|[(Hf & ->)|(c & Hf & Hp & ->)]].
    - destruct Hbad as [Hn|(c' & Hf' & Hp')]; congruence.
    - exists []. now rewrite fs_unlinkSync_absent.
    - eexists. split; reflexivity. }
  assert (Hgone : files (fs_unlinkSync fs (cacheFileOf b)) !! cacheFileOf b = None)
    by apply lookup_delete_eq.
  split; [exact Hctor|]. split; [exact Hgone|]. split.
  { intros other Hne. cbn. now apply lookup_delete_ne. }
  destruct tasks as [|t ts]; cbn zeta.
  { cbn. repeat split. intros Hne. congruence. }
  destruct Hctor as (ops & Hctor & _).
  unfold transformAndroidLibraries, startRun.
  destruct (constructor_cases (fs_unlinkSync fs (cacheFileOf b)) (cacheFileOf b))
    as [(c & stored & Hf & _)|[(_ & Hctor')|(c & Hf & _)]]; try congruence.
  rewrite Hctor, Hctor'.
  destruct (openCache _) as [c flushed].
  destruct (eachSeries v (t :: ts) _) as [[] st|e st|e st|st]; cbn;
    try (repeat split; reflexivity).
  destruct (SimpleFileCache.persist _ _) as [[err fs2] ops2].
  repeat split; reflexivity.
Qed.

(** ** Persisting *)

Lemma processTask_keeps_path (v : BuildVariant) (t : TransformTask)
    (st st' : State) :
  processTask v t st = Done tt st' ->
  SimpleFileCache.cachePathAndFilename (cache st')
  = SimpleFileCache.cachePathAndFilename (cache st).
Proof.
  intros Hp.
  apply processTask_Done in Hp as (h & r & st1 & _ & _ & Ht & _ & Hu).
  apply doTransform_Done_same in Ht as (Hc1 & _).
  unfold updateBuilderWithTransformResult in Hu. injection Hu as <-.
  cbn. now rewrite Hc1.
Qed.

Lemma eachSeries_keeps_path (v : BuildVariant) (tasks : list TransformTask)
    (st st' : State) :
  eachSeries v tasks st = Done tt st' ->
  SimpleFileCache.cachePathAndFilename (cache st')
  = SimpleFileCache.cachePathAndFilename (cache st).
Proof.
  intros Hrun.
  refine (eachSeries_Done_ind
    (fun s => SimpleFileCache.cachePathAndFilename (cache s)
              = SimpleFileCache.cachePathAndFilename (cache st))
    v tasks _ st st' eq_refl Hrun).
  intros t s s' _ Hs Hp. now rewrite (processTask_keeps_path _ _ _ _ Hp).
Qed.

(** C8, as the code has it. [persist] serializes the whole in-memory map
    and writes it straight to the cache file after creating the parent
    directory: when the write completes the file holds exactly the
    serialized map and no other file changed; when the write fails after
    [k] bytes the file holds those [k] bytes. *)
Theorem persist_writes_serialized_map (c : SimpleFileCache.t) (fs : FileSystem) :
  let path := SimpleFileCache.cachePathAndFilename c in
  let dataToWrite := JSON_stringify (SimpleFileCache.data c) in
  let '(err, fs2, ops) := SimpleFileCache.persist c fs in
  ops = [OpMkdirRecursive (path_dirname path); OpWriteFile path dataToWrite]
  /\ (forall other, other <> path -> files fs2 !! other = files fs !! other)
  /\ (write_fault path dataToWrite = None ->
      err = None /\ files fs2 !! path = Some dataToWrite)
  /\ (forall k, write_fault path dataToWrite = Some k ->
      err <> None /\ files fs2 !! path = Some (String.substring 0 k dataToWrite)).
Proof.
  cbn zeta. unfold SimpleFileCache.persist, fs_writeFileSync, wrench_mkdirSyncRecursive.
  destruct (write_fault _ _) as [k|]; cbn.
  - split; [reflexivity|]. split; [intros o Ho; now apply lookup_insert_ne|].
    split; [discriminate|]. intros k' [= <-]. split; [discriminate|].
    apply lookup_insert_eq.
  - split; [reflexivity|]. split; [intros o Ho; now apply lookup_insert_ne|].
    split; [|discriminate]. intros _. split; [reflexivity|].
    apply lookup_insert_eq.
Qed.

(** C6, as the code has it. In a run with at least one task: when every
    task succeeded the cache file is written exactly once, with the swept
    cache, and a run that calls back without error leaves exactly that in
    the file; when a task did not succeed nothing is written, the run does
    not call back with success, and the files are as they were after
    loading, that is as before the run unless the cache file did not parse. *)
Theorem cache_file_written_only_on_success
    (b : Builder) (v : BuildVariant) (log : list LogEntry) (fs fs1 : FileSystem)
    (d : Disk) (ops1 : list FsOp) (tasks : list TransformTask) (st0 : State) :
  startRun b log fs d = (st0, fs1, ops1) ->
  tasks <> [] ->
  let run := transformAndroidLibraries tasks b v log fs d in
  match eachSeries v tasks st0 with
  | Done _ st =>
      let dataToWrite :=
        JSON_stringify (SimpleFileCache.data (cleanUp (cache st) (libraryHashMap st))) in
      List.filter is_write (fs_ops run) = [OpWriteFile (cacheFileOf b) dataToWrite]
      /\ (called run = Called None ->
          files (fs_after run) !! cacheFileOf b = Some dataToWrite)
  | _ =>
      List.filter is_write (fs_ops run) = []
      /\ fs_after run = fs1
      /\ called run <> Called None
  end
  /\ (fs1 = fs
      \/ exists content, files fs !! cacheFileOf b = Some content
                         /\ JSON_parse content = None).
Proof.
  intros Hstart Hne run.
  assert (Hrun : run = finishRun (eachSeries v tasks st0) fs1 ops1).
  { subst run. now apply transformAndroidLibraries_nonempty. }
  pose proof Hstart as Hinit.
  apply startRun_initial in Hinit as (loaded & log' & Hctor & ->).
  destruct (constructor_path _ _ _ _ _ Hctor) as [Hpath Hnow].
  split.
  - destruct (eachSeries v tasks _) as [[] st|e st|e st|st] eqn:Hseries;
      rewrite Hrun; cbn; try (split; [exact Hnow|split; [reflexivity|discriminate]]).
    apply eachSeries_keeps_path in Hseries. cbn in Hseries.
    rewrite openCache_path, Hpath in Hseries.
    unfold SimpleFileCache.persist, fs_writeFileSync.
    rewrite cleanUp_path, Hseries.
    destruct (write_fault _ _); cbn; rewrite List.filter_app, Hnow; cbn;
      (split; [reflexivity|]); [discriminate|].
    intros _. apply lookup_insert_eq.
  - destruct (constructor_cases fs (cacheFileOf b))
      as [(c & stored & _ & _ & Hc)|[(_ & Hc)|(c & Hf & Hp & Hc)]];
      rewrite Hc in Hctor.
    + left. congruence.
    + left. congruence.
    + right. eauto.
Qed.


(** * Further properties of the code *)

(** ** The cache object *)

(** [set] then [get]: the stored value comes back, [has] answers true, every
    other key and the file path are as before; [get] answers [null] exactly
    for the keys [has] denies. *)
Theorem cache_set_get (c : SimpleFileCache.t) (key other : string) (v : CacheValue) :
  SimpleFileCache.get (SimpleFileCache.set c key v) key = Some v
  /\ SimpleFileCache.has (SimpleFileCache.set c key v) key = true
  /\ (other <> key ->
      SimpleFileCache.get (SimpleFileCache.set c key v) other = SimpleFileCache.get c other
      /\ SimpleFileCache.has (SimpleFileCache.set c key v) other = SimpleFileCache.has c other)
  /\ SimpleFileCache.cachePathAndFilename (SimpleFileCache.set c key v)
     = SimpleFileCache.cachePathAndFilename c
  /\ (SimpleFileCache.get c other = None <-> SimpleFileCache.has c other = false).
Proof.
  rewrite !get_lookup. unfold SimpleFileCache.set, SimpleFileCache.has. cbn.
  split; [apply lookup_insert_eq|].
  split; [apply bool_decide_eq_true; rewrite lookup_insert_eq; eauto|].
  split; [|split; [reflexivity|]].
  - intros Hne. rewrite lookup_insert_ne by congruence. auto.
  - rewrite bool_decide_eq_false. apply eq_None_not_Some.
Qed.

(** [remove] deletes the key and nothing else; on a key the cache does not
    hold it returns the cache as it is. *)
Theorem cache_remove (c : SimpleFileCache.t) (key other : string) :
  SimpleFileCache.has (SimpleFileCache.remove c key) key = false
  /\ (other <> key ->
      SimpleFileCache.get (SimpleFileCache.remove c key) other
      = SimpleFileCache.get c other)
  /\ (other ∈ SimpleFileCache.keys (SimpleFileCache.remove c key)
      <-> other ∈ SimpleFileCache.keys c /\ other <> key)
  /\ (SimpleFileCache.has c key = false -> SimpleFileCache.remove c key = c).
Proof.
  split; [|split; [|split]].
  - apply has_false. rewrite data_remove. apply lookup_delete_eq.
  - intros Hne. rewrite !get_lookup, data_remove. now apply lookup_delete_ne.
  - rewrite !elem_of_keys, data_remove.
    destruct (decide (other = key)) as [->|Hne].
    + rewrite lookup_delete_eq. split; [intros [? ?]; discriminate|tauto].
    + rewrite lookup_delete_ne by congruence. tauto.
  - intros Hhas. unfold SimpleFileCache.remove. now rewrite Hhas.
Qed.

(** [keys] lists every key the cache holds exactly once; after [flush]
    there is none. *)
Theorem cache_keys (c : SimpleFileCache.t) (key : string) :
  NoDup (SimpleFileCache.keys c)
  /\ (key ∈ SimpleFileCache.keys c <-> SimpleFileCache.has c key = true)
  /\ SimpleFileCache.keys (SimpleFileCache.flush c) = []
  /\ SimpleFileCache.has (SimpleFileCache.flush c) key = false.
Proof.
  split; [apply NoDup_fst_map_to_list|].
  split; [now rewrite elem_of_keys, has_true|].
  split.
  - unfold SimpleFileCache.keys, SimpleFileCache.flush. cbn.
    now rewrite map_to_list_empty.
  - apply has_false. apply lookup_empty.
Qed.

(** What [persist] wrote, the constructor reads back: when the write
    completes and the parser inverts the serializer on the cache's data, a
    cache constructed on the same path is the persisted cache, and loading
    changes no file. *)
Theorem persist_then_load (c : SimpleFileCache.t) (fs : FileSystem) :
  write_fault (SimpleFileCache.cachePathAndFilename c)
    (JSON_stringify (SimpleFileCache.data c)) = None ->
  JSON_parse (JSON_stringify (SimpleFileCache.data c)) = Some (SimpleFileCache.data c) ->
  let '(err, fs2, _) := SimpleFileCache.persist c fs in
  err = None
  /\ SimpleFileCache.constructor fs2 (SimpleFileCache.cachePathAndFilename c)
     = (c, fs2, []).
Proof.
  intros Hw Hp. unfold SimpleFileCache.persist, fs_writeFileSync.
  rewrite Hw. cbn. split; [reflexivity|].
  erewrite constructor_parsed; [|apply lookup_insert_eq|exact Hp].
  now destruct c.
Qed.

(** ** The version check *)

(** The cache is flushed only when a version entry is present and is not
    the current version; otherwise (current version, or no version entry at
    all) every stored entry is kept and the version entry is (re)written. *)
Theorem openCache_keeps_current (loaded : SimpleFileCache.t) :
  ((openCache loaded).2 = false
   <-> SimpleFileCache.data loaded !! "data-version" = None
       \/ SimpleFileCache.data loaded !! "data-version" = Some (CVersion HOOK_DATA_VERSION))
  /\ ((openCache loaded).2 = false ->
      SimpleFileCache.data (openCache loaded).1
      = <["data-version" := CVersion HOOK_DATA_VERSION]> (SimpleFileCache.data loaded))
  /\ ((openCache loaded).2 = true ->
      SimpleFileCache.data (openCache loaded).1
      = {["data-version" := CVersion HOOK_DATA_VERSION]}).
Proof.
  unfold openCache.
  destruct (SimpleFileCache.has loaded "data-version") eqn:Hhas.
  - rewrite get_lookup. apply has_true in Hhas as [x Hx]. rewrite Hx.
    destruct x as [s|r]; cbn.
    + destruct (String.eqb_spec s HOOK_DATA_VERSION) as [->|Hne]; cbn.
      * split; [split; auto|]. split; [reflexivity|discriminate].
      * split; [split; [discriminate|intros [?|[= ?]]; congruence]|].
        split; [discriminate|]. intros _. apply insert_empty.
    + split; [split; [discriminate|intros [?|?]; discriminate]|].
      split; [discriminate|]. intros _. apply insert_empty.
  - apply has_false in Hhas. cbn.
    split; [split; auto|]. split; [reflexivity|discriminate].
Qed.

(** ** Hashing *)

(** The digest does not depend on how the stream cuts the archive into
    chunks, nor on what follows the first empty read: it is the hex form of
    the hash of all chunks read.  A stream that errors before that leaves
    with an exception, one that just stops never calls [done]. *)
Theorem hashFile_listen_chunks (chunks : list (list Byte.byte))
    (rest : list StreamEvent) (message : string) (st : State) :
  hashFile_listen [] ((EvReadable <$> chunks) ++ EvReadableNull :: rest) st
  = Done (hex_encode (sha1 (concat chunks))) st
  /\ hashFile_listen [] ((EvReadable <$> chunks) ++ EvError message :: rest) st
     = Thrown (IoFailure message) st
  /\ hashFile_listen [] (EvReadable <$> chunks) st = NeverCalled st.
Proof.
  assert (Hgen : forall hash,
    hashFile_listen hash ((EvReadable <$> chunks) ++ EvReadableNull :: rest) st
    = Done (hex_encode (sha1 (hash ++ concat chunks)%list)) st
    /\ hashFile_listen hash ((EvReadable <$> chunks) ++ EvError message :: rest) st
       = Thrown (IoFailure message) st
    /\ hashFile_listen hash (EvReadable <$> chunks) st = NeverCalled st).
  { induction chunks as [|chunk chunks IH]; intros hash; cbn.
    - now rewrite app_nil_r.
    - rewrite app_assoc. apply IH. }
  apply (Hgen []).
Qed.

Lemma hex_encode_alphabet (bs : list Byte.byte) :
  Forall (fun c => c ∈ hex_alphabet) (list_ascii_of_string (hex_encode bs)).
Proof.
  induction bs as [|b bs IH]; cbn; [constructor|].
  constructor; [apply hex_digit_in_alphabet|].
  constructor; [apply hex_digit_in_alphabet|exact IH].
Qed.

Lemma hex_encode_length (bs : list Byte.byte) :
  String.length (hex_encode bs) = 2 * length bs.
Proof. induction bs as [|b bs IH]; cbn; [reflexivity|]. rewrite IH. lia. Qed.

(** A digest handed on by [hashFile] is made of the characters [0-9a-f],
    two for each byte of the hash, and is never the reserved key
    ["data-version"]: storing a record under its digest cannot overwrite
    the version entry. *)
Theorem digest_is_hex (t : TransformTask) (st st' : State) (h : string) :
  hashFile t st = Done h st' ->
  Forall (fun c => c ∈ hex_alphabet) (list_ascii_of_string h)
  /\ (exists bytes, String.length h = 2 * length (sha1 bytes))
  /\ h <> "data-version".
Proof.
  intros [-> Hd]%hashFile_Done.
  split; [|split; [|exact (digestOf_not_version t h Hd)]];
    unfold digestOf in Hd;
    destruct (bytesRead _) as [bytes|]; try discriminate Hd;
    injection Hd as <-.
  - apply hex_encode_alphabet.
  - exists bytes. apply hex_encode_length.
Qed.

(** ** What a completed series leaves behind *)

Lemma addClassPaths_lookup (jarFiles : list string) (cp : gmap string Z) (k : string) :
  addClassPaths jarFiles cp !! k = if decide (k ∈ jarFiles) then Some 1%Z else cp !! k.
Proof.
  unfold addClassPaths. revert cp.
  induction jarFiles as [|jar jarFiles IH]; intros cp; cbn [foldl].
  - rewrite decide_False by apply not_elem_of_nil. reflexivity.
  - rewrite IH. destruct (decide (k ∈ jarFiles)) as [Hin|Hnin].
    + rewrite decide_True by (now apply elem_of_cons; right). reflexivity.
    + destruct (decide (k = jar)) as [->|Hne].
      * rewrite decide_True by (apply elem_of_cons; now left).
        apply lookup_insert_eq.
      * rewrite decide_False by (intros [?|?]%elem_of_cons; congruence).
        now apply lookup_insert_ne.
Qed.

Lemma addClassPaths_app (l1 l2 : list string) (cp : gmap string Z) :
  addClassPaths (l1 ++ l2) cp = addClassPaths l2 (addClassPaths l1 cp).
Proof. unfold addClassPaths. apply foldl_app. Qed.

(** The commit of one completed task, spelled out. *)
Lemma processTask_Done_commit (v : BuildVariant) (t : TransformTask)
    (st st' : State) :
  wellKeyed (SimpleFileCache.data (cache st)) ->
  processTask v t st = Done tt st' ->
  exists r,
    recordFor t r
    /\ libraryHashMap st !! sha256 r = None
    /\ packageNameMap st !! packageName r = None
    /\ libraryHashMap st' = <[sha256 r := r]> (libraryHashMap st)
    /\ packageNameMap st' = <[packageName r := r]> (packageNameMap st)
    /\ SimpleFileCache.data (cache st')
       = <[sha256 r := CRecord r]> (SimpleFileCache.data (cache st))
    /\ androidLibraries (builder st') = (androidLibraries (builder st) ++ [r])%list
    /\ classPaths (builder st')
       = match v with
         | BUILD_VARIANT_MODULE => addClassPaths (jars r) (classPaths (builder st))
         | BUILD_VARIANT_APP => classPaths (builder st)
         end.
Proof.
  intros Hwk Hp.
  apply processTask_Done in Hp as (h & r & st1 & Hd & Hl & Ht & Hfree & Hu).
  pose proof (doTransform_Done_digest _ _ _ _ _ _ Hwk Ht) as Hsha. subst h.
  assert (Hpath : aarPathAndFilename (task r) = aarPathAndFilename t).
  { apply doTransform_Done in Ht as [[(_ & Hp & _) _]|Hrun]; [exact Hp|].
    apply runTransformer_Done in Hrun as (_ & -> & _). reflexivity. }
  apply doTransform_Done_same in Ht as (Hc1 & Hl1 & Hn1 & Hb1).
  unfold updateBuilderWithTransformResult in Hu. injection Hu as <-.
  rewrite Hn1 in Hfree. exists r. cbn. rewrite Hc1, Hl1, Hn1, Hb1.
  repeat split; try assumption; try reflexivity.
Qed.

Lemma eachSeries_Done_summary (v : BuildVariant) (tasks : list TransformTask)
    (st st' : State) :
  wellKeyed (SimpleFileCache.data (cache st)) ->
  eachSeries v tasks st = Done tt st' ->
  exists accepted,
    androidLibraries (builder st') = (androidLibraries (builder st) ++ accepted)%list
    /\ Forall2 recordFor tasks accepted
    /\ (forall r, r ∈ accepted ->
          libraryHashMap st !! sha256 r = None
          /\ packageNameMap st !! packageName r = None)
    /\ NoDup (sha256 <$> accepted)
    /\ NoDup (packageName <$> accepted)
    /\ (forall r, r ∈ accepted -> registered st' r)
    /\ (forall k, k ∉ sha256 <$> accepted ->
          libraryHashMap st' !! k = libraryHashMap st !! k
          /\ SimpleFileCache.data (cache st') !! k = SimpleFileCache.data (cache st) !! k)
    /\ (forall n, n ∉ packageName <$> accepted ->
          packageNameMap st' !! n = packageNameMap st !! n)
    /\ classPaths (builder st')
       = match v with
         | BUILD_VARIANT_MODULE =>
             addClassPaths (concat (jars <$> accepted)) (classPaths (builder st))
         | BUILD_VARIANT_APP => classPaths (builder st)
         end.
Proof.
  revert st. induction tasks as [|t tasks IH]; intros st Hwk; cbn.
  - intros [= <-]. exists []. cbn.
    split; [now rewrite app_nil_r|]. split; [constructor|].
    split; [intros r Hin; now apply elem_of_nil in Hin|].
    split; [constructor|]. split; [constructor|].
    split; [intros r Hin; now apply elem_of_nil in Hin|].
    split; [auto|]. split; [auto|]. now destruct v.
  - destruct (processTask v t st) as [[] s|e s|e s|s] eqn:Hp; cbn;
      try discriminate.
    intros Hrest.
    destruct (processTask_Done_commit v t st s Hwk Hp)
      as (r & Hrec & Hl & Hn & Hlm & Hnm & Hcm & Hlibs & Hcp).
    assert (Hwk' : wellKeyed (SimpleFileCache.data (cache s)))
      by (rewrite Hcm; now apply wellKeyed_insert).
    destruct (IH s Hwk' Hrest)
      as (acc & Hlibs' & Hall & Hnew & Hnd1 & Hnd2 & Hreg & Hkeep & Hkeepn & Hcp').
    assert (Hsha : forall r', r' ∈ acc -> sha256 r' <> sha256 r).
    { intros r' Hin Heq. destruct (Hnew r' Hin) as [Hnone _].
      rewrite Hlm, Heq, lookup_insert_eq in Hnone. discriminate. }
    assert (Hname : forall r', r' ∈ acc -> packageName r' <> packageName r).
    { intros r' Hin Heq. destruct (Hnew r' Hin) as [_ Hnone].
      rewrite Hnm, Heq, lookup_insert_eq in Hnone. discriminate. }
    assert (Hsha' : sha256 r ∉ sha256 <$> acc).
    { intros (r' & Heq & Hin)%list_elem_of_fmap. now apply (Hsha r' Hin). }
    assert (Hname' : packageName r ∉ packageName <$> acc).
    { intros (r' & Heq & Hin)%list_elem_of_fmap. now apply (Hname r' Hin). }
    exists (r :: acc).
    split; [rewrite Hlibs', Hlibs; now rewrite <- app_assoc|].
    split; [now constructor|].
    split.
    { intros r' [->|Hin]%elem_of_cons; [auto|].
      destruct (Hnew r' Hin) as [H1 H2].
      rewrite Hlm, lookup_insert_ne in H1 by (apply not_eq_sym; auto).
      rewrite Hnm, lookup_insert_ne in H2 by (apply not_eq_sym; auto). auto. }
    split; [rewrite fmap_cons; now constructor|].
    split; [rewrite fmap_cons; now constructor|].
    split.
    { intros r' [->|Hin]%elem_of_cons; [|auto].
      destruct (Hkeep _ Hsha') as [H1 H2]. unfold registered.
      rewrite H1, H2, (Hkeepn _ Hname'), Hlm, Hnm, Hcm, !lookup_insert_eq. auto. }
    split.
    { intros k Hk. rewrite fmap_cons, not_elem_of_cons in Hk.
      destruct Hk as [Hne Hk]. destruct (Hkeep k Hk) as [H1 H2].
      rewrite H1, H2, Hlm, Hcm, !lookup_insert_ne by congruence. auto. }
    split.
    { intros n Hk. rewrite fmap_cons, not_elem_of_cons in Hk.
      destruct Hk as [Hne Hk].
      rewrite (Hkeepn n Hk), Hnm, lookup_insert_ne by congruence. reflexivity. }
    rewrite Hcp', Hcp. destruct v; [|reflexivity].
    rewrite fmap_cons, concat_cons. now rewrite addClassPaths_app.
Qed.

(** A series that completes (from a cache whose records are stored under
    their own digest) appended exactly one record per task to
    [builder.androidLibraries], in task order, each stored under its task's
    digest and naming its task's path; no two tasks had the same digest, no
    two records declare the same package, and every record is in both
    registries and in the cache. *)
Theorem completed_series_one_record_per_task
    (v : BuildVariant) (tasks : list TransformTask) (st st' : State) :
  wellKeyed (SimpleFileCache.data (cache st)) ->
  eachSeries v tasks st = Done tt st' ->
  exists accepted,
    androidLibraries (builder st') = (androidLibraries (builder st) ++ accepted)%list
    /\ Forall2 recordFor tasks accepted
    /\ NoDup (digestOf <$> tasks)
    /\ NoDup (packageName <$> accepted)
    /\ forall r, r ∈ accepted -> registered st' r.
Proof.
  intros Hwk Hrun.
  destruct (eachSeries_Done_summary v tasks st st' Hwk Hrun)
    as (acc & Hlibs & Hall & _ & Hnd1 & Hnd2 & Hreg & _).
  exists acc. split; [exact Hlibs|]. split; [exact Hall|].
  split; [|split; [exact Hnd2|exact Hreg]].
  assert (Hdig : digestOf <$> tasks = Some <$> (sha256 <$> acc)).
  { clear -Hall. induction Hall as [|t r ts rs [Hd _] _ IH]; [reflexivity|].
    rewrite !fmap_cons, Hd, IH. reflexivity. }
  rewrite Hdig. apply NoDup_fmap; [|exact Hnd1]. intros x y [= ->]. reflexivity.
Qed.

(** In a module build every jar of every accepted library ends up in
    [builder.classPaths] with value 1 and the other entries stay as they
    were; in an application build [builder.classPaths] is not touched. *)
Theorem completed_series_class_paths
    (v : BuildVariant) (tasks : list TransformTask) (st st' : State) :
  wellKeyed (SimpleFileCache.data (cache st)) ->
  eachSeries v tasks st = Done tt st' ->
  match v with
  | BUILD_VARIANT_APP => classPaths (builder st') = classPaths (builder st)
  | BUILD_VARIANT_MODULE =>
      exists accepted,
        androidLibraries (builder st')
        = (androidLibraries (builder st) ++ accepted)%list
        /\ (forall r jar, r ∈ accepted -> jar ∈ jars r ->
               classPaths (builder st') !! jar = Some 1%Z)
        /\ (forall jar, (forall r, r ∈ accepted -> jar ∉ jars r) ->
               classPaths (builder st') !! jar = classPaths (builder st) !! jar)
  end.
Proof.
  intros Hwk Hrun.
  destruct (eachSeries_Done_summary v tasks st st' Hwk Hrun)
    as (acc & Hlibs & _ & _ & _ & _ & _ & _ & _ & Hcp).
  destruct v; [|exact Hcp].
  assert (Hiff : forall jar,
    jar ∈ concat (jars <$> acc) <-> exists r, r ∈ acc /\ jar ∈ jars r).
  { intros jar. rewrite list_elem_of_In, in_concat. split.
    - intros (l & Hl & Hj). apply list_elem_of_In, list_elem_of_fmap in Hl as (r & -> & Hr).
      exists r. split; [exact Hr|now apply list_elem_of_In].
    - intros (r & Hr & Hj). exists (jars r). split.
      + apply list_elem_of_In, list_elem_of_fmap. eauto.
      + now apply list_elem_of_In. }
  exists acc. split; [exact Hlibs|]. split.
  - intros r jar Hr Hj. rewrite Hcp, addClassPaths_lookup.
    rewrite decide_True; [reflexivity|]. apply Hiff. eauto.
  - intros jar Hno. rewrite Hcp, addClassPaths_lookup.
    rewrite decide_False; [reflexivity|].
    intros (r & Hr & Hj)%Hiff. now apply (Hno r Hr).
Qed.

(** When every key of the cache at the start of a series is the version key
    (a missing, unreadable or outdated cache file), the sweep at the end of
    the run removes nothing: what is persisted is the version entry and the
    records committed by this run. *)
Theorem fresh_run_sweeps_nothing
    (v : BuildVariant) (tasks : list TransformTask) (st st' : State) :
  onlyThisRun st ->
  eachSeries v tasks st = Done tt st' ->
  cleanUp (cache st') (libraryHashMap st') = cache st'.
Proof.
  intros Honly Hrun.
  destruct (eachSeries_fresh (builder st) v tasks st st' Honly) as [Honly' _];
    [reflexivity|exact Hrun|].
  pose proof (cleanUp_path (cache st') (libraryHashMap st')) as Hpath.
  assert (Hdata : SimpleFileCache.data (cleanUp (cache st') (libraryHashMap st'))
                  = SimpleFileCache.data (cache st')).
  { apply map_eq. intros k. rewrite cleanUp_lookup.
    destruct (decide (k = "data-version" \/ is_Some (libraryHashMap st' !! k)))
      as [_|Hno]; [reflexivity|].
    symmetry. apply eq_None_not_Some. intros Hsome. now apply Hno, Honly'. }
  destruct (cleanUp (cache st') (libraryHashMap st')) as [p m].
  destruct (cache st') as [p' m']. cbn in *. congruence.
Qed.

(** ** Every way a task can end *)

Lemma hashFile_listen_cases (events : list StreamEvent) (hash : list Byte.byte)
    (st : State) :
  (exists h, hashFile_listen hash events st = Done h st)
  \/ (exists message, hashFile_listen hash events st = Thrown (IoFailure message) st)
  \/ hashFile_listen hash events st = NeverCalled st.
Proof.
  revert hash. induction events as [|[data| |message] events IH]; intros hash; cbn;
    eauto.
Qed.

Lemma processTask_cases (v : BuildVariant) (t : TransformTask) (st : State) :
  (transformCalls (state_of (processTask v t st)) = transformCalls st
   \/ transformCalls (state_of (processTask v t st))
      = (transformCalls st ++ [transformOptions_for v t (builder st)])%list)
  /\ (forall t', transformOptions_for v t' (builder (state_of (processTask v t st)))
                 = transformOptions_for v t' (builder st))
  /\ (forall e s, processTask v t st = Failed e s -> reportedError e)
  /\ (forall s, processTask v t st = NeverCalled s ->
        forall h s', hashFile t st <> Done h s').
Proof.
  unfold processTask, waterfall, hashFile.
  destruct (hashFile_listen_cases
              (createReadStream (aarPathAndFilename t)) [] st)
    as [[h ->]|[[m ->]| ->]]; cbn;
    try (repeat split; auto; intros; discriminate).
  unfold skipLibraryIfDuplicate.
  destruct (libraryHashMap st !! h) as [lib|]; cbn;
    [repeat split; auto; intros; discriminate|].
  assert (Hupd : forall r s,
    (transformCalls s = transformCalls st
     \/ transformCalls s
        = (transformCalls st ++ [transformOptions_for v t (builder st)])%list) ->
    builder s = builder st ->
    let res := match andThen (ensureUniquePackageName r s)
                       (updateBuilderWithTransformResult v) with
               | Failed err st' =>
                   if instanceof_SkipLibraryError err then Done tt st'
                   else Failed err st'
               | other => other
               end in
    (transformCalls (state_of res) = transformCalls st
     \/ transformCalls (state_of res)
        = (transformCalls st ++ [transformOptions_for v t (builder st)])%list)
    /\ (forall t', transformOptions_for v t' (builder (state_of res))
                   = transformOptions_for v t' (builder st))
    /\ (forall e s', res = Failed e s' -> reportedError e)
    /\ (forall s', res = NeverCalled s' -> forall (h0 : string) (s'' : State),
          Done h st <> Done h0 s'')).
  { intros r s Hcalls Hb. unfold ensureUniquePackageName.
    destruct (packageNameMap s !! packageName r) as [existing|]; cbn.
    - rewrite Hb. split; [exact Hcalls|]. split; [reflexivity|].
      split; [|discriminate]. intros e s' [= <- _]. right. eauto.
    - split; [exact Hcalls|]. split; [now rewrite Hb|].
      split; discriminate. }
  assert (Hrun : let res := match andThen (andThen (runTransformer v t h st)
                                       ensureUniquePackageName)
                                (updateBuilderWithTransformResult v) with
               | Failed err st' =>
                   if instanceof_SkipLibraryError err then Done tt st'
                   else Failed err st'
               | other => other
               end in
    (transformCalls (state_of res) = transformCalls st
     \/ transformCalls (state_of res)
        = (transformCalls st ++ [transformOptions_for v t (builder st)])%list)
    /\ (forall t', transformOptions_for v t' (builder (state_of res))
                   = transformOptions_for v t' (builder st))
    /\ (forall e s', res = Failed e s' -> reportedError e)
    /\ (forall s', res = NeverCalled s' -> forall (h0 : string) (s'' : State),
          Done h st <> Done h0 s'')).
  { unfold runTransformer.
    destruct (AarTransformer_transform _ _) as [[err|result] disk']; cbn.
    - split; [now right|]. split; [reflexivity|].
      split; [|discriminate]. intros e s' [= <- _]. left. eauto.
    - apply Hupd; [now right|reflexivity]. }
  unfold doTransform.
  destruct (SimpleFileCache.has (cache st) h); [|exact Hrun].
  destruct (SimpleFileCache.get (cache st) h) as [[s|r]|]; cbn;
    try (repeat split; auto; intros; discriminate).
  destruct (_ && _); [|exact Hrun].
  apply Hupd; [now left|reflexivity].
Qed.

(** Whatever the outcome of a series, the transformer was called at most
    once per task and in task order: the calls made are those for a
    sub-sequence of the tasks. *)
Theorem transformer_called_at_most_once_per_task
    (v : BuildVariant) (tasks : list TransformTask) (st : State) :
  exists attempted,
    sublist attempted tasks
    /\ transformCalls (state_of (eachSeries v tasks st))
       = (transformCalls st ++ callsFor v (builder st) attempted)%list.
Proof.
  revert st. induction tasks as [|t tasks IH]; intros st; cbn.
  - exists []. split; [constructor|]. now rewrite app_nil_r.
  - destruct (processTask_cases v t st) as (Hcalls & Hdirs & _).
    destruct (processTask v t st) as [[] s|e s|e s|s] eqn:Hp; cbn in *;
      try (destruct Hcalls as [->| ->];
           [exists []; split; [apply sublist_nil_l|now rewrite app_nil_r]
           |exists [t]; split; [apply sublist_skip, sublist_nil_l|reflexivity]]).
    destruct (IH s) as (att & Hsub & Hatt).
    assert (Hsame : callsFor v (builder s) att = callsFor v (builder st) att).
    { unfold callsFor. apply list_fmap_ext. intros _ t' _. apply Hdirs. }
    rewrite Hatt, Hsame. destruct Hcalls as [->| ->].
    + exists att. split; [now apply sublist_cons|reflexivity].
    + exists (t :: att). split; [now apply sublist_skip|].
      now rewrite <- app_assoc.
Qed.

Lemma eachSeries_Failed_reported (v : BuildVariant) (tasks : list TransformTask)
    (st s : State) (e : JsError) :
  eachSeries v tasks st = Failed e s -> reportedError e.
Proof.
  revert st. induction tasks as [|t tasks IH]; intros st; cbn; [discriminate|].
  destruct (processTask_cases v t st) as (_ & _ & Hkind & _).
  destruct (processTask v t st) as [[] s1|e1 s1|e1 s1|s1]; cbn;
    try discriminate.
  - apply IH.
  - intros [= <- <-]. now apply (Hkind e1 s1).
Qed.

(** The only errors the run hands to its callback are the transformer's
    error and the package name conflict; in particular never the
    [SkipLibraryError] marker, which lives and dies inside the task's own
    callback. *)
Theorem run_reports_only_transformer_or_conflict_errors
    (tasks : list TransformTask) (b : Builder) (v : BuildVariant)
    (log : list LogEntry) (fs : FileSystem) (d : Disk) (e : JsError) :
  called (transformAndroidLibraries tasks b v log fs d) = Called (Some e) ->
  reportedError e /\ instanceof_SkipLibraryError e = false.
Proof.
  intros Hcalled.
  assert (Hrep : reportedError e).
  { destruct tasks as [|t ts]; [discriminate Hcalled|].
    unfold transformAndroidLibraries in Hcalled.
    destruct (startRun b log fs d) as [[st0 fs1] ops1].
    destruct (eachSeries v (t :: ts) st0) as [[] s|e1 s|e1 s|s] eqn:Hs;
      cbn in Hcalled; try discriminate Hcalled.
    - destruct (SimpleFileCache.persist _ _) as [[[err|] fs2] ops2];
        discriminate Hcalled.
    - injection Hcalled as ->. now apply eachSeries_Failed_reported in Hs. }
  split; [exact Hrep|].
  destruct Hrep as [[m ->]|(x & y & ->)]; reflexivity.
Qed.

(** A transformer that fails on a task fails the run with its error: the
    callback gets that error, the registries, the cache and the builder are
    as they were before the task, no later task is processed and nothing
    is written to the cache file. *)
Theorem transformer_error_fails_run
    (b : Builder) (v : BuildVariant) (log : list LogEntry) (fs fs1 : FileSystem)
    (d d' : Disk) (ops1 : list FsOp) (pre rest : list TransformTask)
    (t : TransformTask) (st0 st : State) (h err : string) :
  startRun b log fs d = (st0, fs1, ops1) ->
  eachSeries v pre st0 = Done tt st ->
  digestOf t = Some h ->
  libraryHashMap st !! h = None ->
  (forall x, SimpleFileCache.data (cache st) !! h = Some x -> exists r, x = CRecord r) ->
  (forall r, ~ cacheHit t h st r) ->
  AarTransformer_transform (disk st) (transformOptions_for v t (builder st))
  = (inl err, d') ->
  let run := transformAndroidLibraries (pre ++ t :: rest) b v log fs d in
  called run = Called (Some (TransformerError err))
  /\ fs_ops run = ops1 /\ fs_after run = fs1
  /\ exists st',
       run_state run = Some st'
       /\ sameRegistries st st'
       /\ disk st' = d'
       /\ transformCalls st'
          = (transformCalls st ++ [transformOptions_for v t (builder st)])%list.
Proof.
  intros Hstart Hpre Hd Hl Hrec Hmiss Htr run.
  assert (Hstep : runTransformer v t h st
    = Failed (TransformerError err)
        {| cache := cache st; libraryHashMap := libraryHashMap st;
           packageNameMap := packageNameMap st; builder := builder st;
           disk := d'; logger := logger st;
           transformCalls :=
             (transformCalls st ++ [transformOptions_for v t (builder st)])%list |}).
  { unfold runTransformer. now rewrite Htr. }
  assert (Hseries : exists st',
    eachSeries v (pre ++ t :: rest) st0 = Failed (TransformerError err) st'
    /\ sameRegistries st st' /\ disk st' = d'
    /\ transformCalls st'
       = (transformCalls st ++ [transformOptions_for v t (builder st)])%list).
  { eexists. split.
    - rewrite eachSeries_app, Hpre. cbn. unfold processTask, waterfall.
      rewrite (proj2 (hashFile_Done t st st h)) by auto. cbn.
      rewrite skipLibraryIfDuplicate_unseen by exact Hl. cbn.
      rewrite (doTransform_miss v t h st Hrec Hmiss), Hstep. reflexivity.
    - repeat split; reflexivity. }
  destruct Hseries as (st' & Hseries & Hsame & Hdisk & Hcalls).
  assert (Hrun : run = finishRun (Failed (TransformerError err) st') fs1 ops1).
  { subst run. rewrite (transformAndroidLibraries_nonempty _ _ _ _ _ _ _ _ _ Hstart).
    - now rewrite Hseries.
    - now destruct pre. }
  rewrite Hrun. cbn. repeat split; try reflexivity. eauto.
Qed.

End Properties.

(** * The properties on the sample platform *)

Section OnSample.
Import Sample.
#[local] Existing Instance reliable.

(** Scanning the sample project finds the module's archive and skips the
    other file of its [lib] folder. *)
Example scan_sample_project :
  projectAndroidLibraries builder0 ["/mod/lib"] = [taskA]
  /\ called (init build_pre_compile builder0 [] noFiles ["/mod/lib"]) = Called None.
Proof. vm_compute. split; reflexivity. Qed.

(** [b.aar] and [c.aar] declare the same package: the run over them fails,
    and [b.aar] keeps the name. *)
Lemma package_name_conflict_fails_run_witness :
  called (run [taskB; taskC; taskA] noFiles [])
  = Called (Some (Error (conflictMessage recB recC)))
  /\ packageNameMap (after [taskB] noFiles []) !! "com.shared" = Some recB.
Proof.
  pose proof (package_name_conflict_fails_run builder0 BUILD_VARIANT_APP []
    noFiles noFiles [] [] [taskB] [taskA] taskC
    (start noFiles []) (after [taskB] noFiles [])
    (state_of (doTransform BUILD_VARIANT_APP taskC "43" (after [taskB] noFiles [])))
    "43" recC recB) as Hthm.
  cbn zeta in Hthm.
  destruct Hthm as (Hcalled & _); try (vm_compute; reflexivity).
  split; [exact Hcalled|vm_compute; reflexivity].
Defined.
(** A cache file of version 0: the run starts from the version key alone and
    transforms both archives. *)
Lemma version_change_invalidates_cache_witness :
  SimpleFileCache.data (cache (start (withCacheFile "outdated") []))
  = {["data-version" := CVersion HOOK_DATA_VERSION]}
  /\ transformCalls (after [taskA; taskB] (withCacheFile "outdated") [])
     = callsFor BUILD_VARIANT_APP builder0 [taskA; taskB].
Proof.
  destruct (@version_change_invalidates_cache reliable builder0 BUILD_VARIANT_APP []
    (withCacheFile "outdated") [] "outdated"
    (<["data-version" := CVersion "0"]> (<["41" := CRecord recA]> ∅))
    (CVersion "0"))
    as (st0 & Hstart & Hdata & Hseries & _);
    try (vm_compute; reflexivity); [discriminate|].
  assert (Hst0 : st0 = start (withCacheFile "outdated") []).
  { unfold start. now rewrite Hstart. }
  subst st0. split; [exact Hdata|].
  apply (Hseries [taskA; taskB]). vm_compute. reflexivity.
Defined.

(** [a.aar] is cached: reused while its exploded directory exists,
    transformed again when it does not. *)
Lemma cached_record_reused_iff_witness :
  let step st :=
    andThen (andThen (hashFile taskA st) (skipLibraryIfDuplicate taskA))
            (doTransform BUILD_VARIANT_APP taskA) in
  step (start (withCacheFile "current") ["/build/exploded-aar/com.a"])
  = Done recA
      (trace (TraceNotChanged "/mod/lib/a.aar")
         (start (withCacheFile "current") ["/build/exploded-aar/com.a"]))
  /\ transformCalls (state_of (step (start (withCacheFile "current") [])))
     = [transformOptions_for BUILD_VARIANT_APP taskA builder0].
Proof.
  assert (Hd : digestOf taskA = Some "41") by (vm_compute; reflexivity).
  assert (Hrec : forall d x,
    SimpleFileCache.data (cache (start (withCacheFile "current") d)) !! "41" = Some x ->
    exists r, x = CRecord r).
  { intros d x Hx. vm_compute in Hx. injection Hx as <-. eauto. }
  split.
  - pose proof (cached_record_reused_iff BUILD_VARIANT_APP taskA "41"
      (start (withCacheFile "current") ["/build/exploded-aar/com.a"])
      Hd eq_refl (Hrec _)) as (Hhit & _).
    apply (Hhit recA). repeat split; vm_compute; reflexivity.
  - pose proof (cached_record_reused_iff BUILD_VARIANT_APP taskA "41"
      (start (withCacheFile "current") [])
      Hd eq_refl (Hrec _)) as (_ & Hmiss & _).
    destruct Hmiss as [_ Hcalls].
    + intros r (_ & _ & He). vm_compute in He. discriminate He.
    + exact Hcalls.
Defined.



(** A run without tasks succeeds and does not write the cache file. *)
Lemma empty_run_writes_nothing :
  called (run [] (withCacheFile "current") []) = Called None
  /\ length (List.filter is_write (fs_ops (run [] (withCacheFile "current") []))) <> 1.
Proof. split; [reflexivity|]. vm_compute. discriminate. Qed.

(** One write after two successful tasks; none, and the file untouched,
    after a conflict. *)
Lemma cache_file_written_only_on_success_witness :
  List.filter is_write (fs_ops (run [taskA; taskB] noFiles []))
  = [OpWriteFile cacheFile "keys:41,42,data-version"]
  /\ List.filter is_write (fs_ops (run [taskB; taskC] (withCacheFile "current") [])) = []
  /\ fs_after (run [taskB; taskC] (withCacheFile "current") []) = withCacheFile "current".
Proof.
  split.
  - pose proof (cache_file_written_only_on_success builder0 BUILD_VARIANT_APP []
      noFiles noFiles [] [] [taskA; taskB] (start noFiles [])
      eq_refl ltac:(discriminate)) as [Hwrites _].
    exact (proj1 Hwrites).
  - pose proof (cache_file_written_only_on_success builder0 BUILD_VARIANT_APP []
      (withCacheFile "current") (withCacheFile "current") [] [] [taskB; taskC]
      (start (withCacheFile "current") [])
      eq_refl ltac:(discriminate)) as [(Hnone & Hfs & _) _].
    split; [exact Hnone|exact Hfs].
Defined.

(** A write that fails after one byte leaves that byte in the cache file:
    neither the previous contents nor the new ones. *)
Lemma persist_failure_leaves_prefix :
  let c := SimpleFileCache.Build cacheFile {["data-version" := CVersion "1"]} in
  let fs := withCacheFile "keys:41,data-version" in
  let result := @SimpleFileCache.persist failing c fs in
  result.1.1 = Some (IoFailure "write failed")
  /\ @JSON_stringify failing (SimpleFileCache.data c) = "keys:data-version"
  /\ files fs !! cacheFile = Some "keys:41,data-version"
  /\ files result.1.2 !! cacheFile = Some "k".
Proof. vm_compute. repeat split; reflexivity. Qed.

(** A completed write leaves the serialized map in the cache file. *)
Lemma persist_writes_serialized_map_witness :
  let c := SimpleFileCache.Build cacheFile {["data-version" := CVersion "1"]} in
  files (SimpleFileCache.persist c noFiles).1.2 !! cacheFile
  = Some "keys:data-version".
Proof.
  intros c.
  pose proof (persist_writes_serialized_map c noFiles) as Hthm.
  cbn zeta in Hthm.
  destruct (SimpleFileCache.persist c noFiles) as [[err fs2] ops].
  destruct Hthm as (_ & _ & Hok & _).
  exact (proj2 (Hok eq_refl)).
Defined.

(** A cache file that does not parse: empty cache, file removed, the run succeeds. *)
Lemma unreadable_cache_file_recovered_witness :
  (SimpleFileCache.constructor (withCacheFile "garbage") cacheFile).1
  = (SimpleFileCache.Build cacheFile ∅, noFiles)
  /\ called (run [taskA] (withCacheFile "garbage") []) = Called None.
Proof.
  pose proof (unreadable_cache_file_recovered (withCacheFile "garbage") builder0
    BUILD_VARIANT_APP [] [] [taskA]) as (_ & _ & _ & Hrun).
  { right. exists "garbage". split; vm_compute; reflexivity. }
  cbn zeta in Hrun. destruct Hrun as (Hcalled & _).
  split; [vm_compute; reflexivity|].
  unfold run. rewrite Hcalled. vm_compute. reflexivity.
Defined.


(** C4. Two archives with the same bytes: the second one's digest is in
    [libraryHashMap], and building the trace message of the duplicate branch
    throws, so [done(new SkipLibraryError())] is not reached: the run ends
    with an exception that no callback receives, after one call of the
    transformer, and nothing is persisted. *)
Theorem duplicate_archive_aborts_run :
  digestOf taskA = Some "41" /\ digestOf taskACopy = Some "41"
  /\ aarPathAndFilename taskA <> aarPathAndFilename taskACopy
  /\ called (run [taskA; taskACopy; taskB] noFiles [])
     = Uncaught (TypeError "Cannot read property 'cyan' of undefined")
  /\ transformCalls (after [taskA; taskACopy; taskB] noFiles [])
     = [transformOptions_for BUILD_VARIANT_APP taskA builder0]
  /\ length (androidLibraries (builder (after [taskA; taskACopy; taskB] noFiles []))) = 1
  /\ fs_ops (run [taskA; taskACopy; taskB] noFiles []) = [].
Proof. vm_compute. repeat split; try reflexivity. discriminate. Qed.

(** C7. An archive that cannot be read: its stream delivers an ['error']
    event, for which [hashFile] has no listener; [done] is never called, the
    error reaches no callback and the run ends with an uncaught exception. *)
Theorem unreadable_archive_error_reaches_no_callback :
  createReadStream (aarPathAndFilename taskMissing) = [EvError "ENOENT"]
  /\ hashFile taskMissing (start noFiles [])
     = Thrown (IoFailure "ENOENT") (start noFiles [])
  /\ called (run [taskMissing] noFiles []) = Uncaught (IoFailure "ENOENT")
  /\ called (run [taskMissing] noFiles []) <> Called (Some (IoFailure "ENOENT")).
Proof. vm_compute. repeat split; try reflexivity. discriminate. Qed.

End OnSample.
